(** * Badge issuers: a shallow embedding of [credentials/apps/badges/issuers.py]

    The module is an orchestration layer: it upserts a local user-credential
    row, emits a notification, calls a badge provider and writes the
    provider's answer back into the row.  The embedding threads an explicit
    [World] (database tables, an event log for notifications and provider
    calls) through a small state-and-exception monad in which, as in Python,
    the effects made before an exception stay in place. *)

From Stdlib Require Import String List ZArith Bool Arith Lia.
Import ListNotations.
Open Scope string_scope.
Open Scope list_scope.

(** ** Python values that flow through the module *)

(** What a provider response, or a field copied from it, can hold. *)
#[warnings="-register-all"]
Inductive PyVal : Type :=
| PyNone
| PyStr (s : string)
| PyDict (items : list (string * PyVal)).

Inductive Exception : Type :=
| DoesNotExist
| MultipleObjectsReturned
| AttributeError
| BadgeProviderError (message : string)
| OtherError (message : string).

Fixpoint dict_lookup (items : list (string * PyVal)) (key : string) : PyVal :=
  match items with
  | [] => PyNone
  | (k, v) :: rest => if String.eqb k key then v else dict_lookup rest key
  end.

(** [obj.get(key)]: a dict answers (None for a missing key), anything else
    has no [get] attribute. *)
Definition py_get (obj : PyVal) (key : string) : Exception + PyVal :=
  match obj with
  | PyDict items => inr (dict_lookup items key)
  | _ => inl AttributeError
  end.

(** [value == constant] where the constant is None or a string, which is all
    [REVOCATION_STATES.get] can return. *)
Definition py_eq_const (value : PyVal) (constant : option string) : bool :=
  match value, constant with
  | PyNone, None => true
  | PyStr s, Some t => String.eqb s t
  | _, _ => false
  end.

(** ** Data model *)

Inductive UserCredentialStatus : Type := AWARDED | REVOKED.

(** [issued_credential_type]: the credential-definition models. *)
Inductive CredentialType : Type := BadgeTemplate | CredlyBadgeTemplate | AccredibleGroup.

(** [issued_user_credential_type]: the user-credential models. *)
Inductive UserCredentialType : Type := UserCredential | CredlyBadge | AccredibleBadge.

(** The three issuer classes of the module. *)
Inductive Issuer : Type :=
| BadgeTemplateIssuer
| CredlyBadgeTemplateIssuer
| AccredibleBadgeTemplateIssuer.

Definition issued_credential_type (self : Issuer) : CredentialType :=
  match self with
  | BadgeTemplateIssuer => BadgeTemplate
  | CredlyBadgeTemplateIssuer => CredlyBadgeTemplate
  | AccredibleBadgeTemplateIssuer => AccredibleGroup
  end.

Definition issued_user_credential_type (self : Issuer) : UserCredentialType :=
  match self with
  | BadgeTemplateIssuer => UserCredential
  | CredlyBadgeTemplateIssuer => CredlyBadge
  | AccredibleBadgeTemplateIssuer => AccredibleBadge
  end.

Definition CredentialType_eqb (a b : CredentialType) : bool :=
  match a, b with
  | BadgeTemplate, BadgeTemplate
  | CredlyBadgeTemplate, CredlyBadgeTemplate
  | AccredibleGroup, AccredibleGroup => true
  | _, _ => false
  end.

Definition UserCredentialType_eqb (a b : UserCredentialType) : bool :=
  match a, b with
  | UserCredential, UserCredential
  | CredlyBadge, CredlyBadge
  | AccredibleBadge, AccredibleBadge => true
  | _, _ => false
  end.

(** A credential definition row (badge template or group). *)
Record Credential : Type := mkCredential {
  c_type : CredentialType;
  c_id : Z;
  c_uuid : string;
  c_name : string;
  c_created : Z;
  c_organization_uuid : string;
  c_api_config_id : Z
}.

(** A user-credential row.  [pk] is the primary key; the triple
    ([username], [credential_content_type], [credential_id]) is the composite
    key of [get_or_create]. *)
Record UserCredentialRow : Type := mkUserCredential {
  pk : nat;
  username : string;
  credential_content_type : CredentialType;
  credential_id : Z;
  status : UserCredentialStatus;
  state : PyVal;
  external_uuid : PyVal;
  external_id : PyVal;
  created : Z
}.

Definition set_status (v : UserCredentialStatus) (r : UserCredentialRow) : UserCredentialRow :=
  mkUserCredential (pk r) (username r) (credential_content_type r) (credential_id r)
    v (state r) (external_uuid r) (external_id r) (created r).

Definition set_state (v : PyVal) (r : UserCredentialRow) : UserCredentialRow :=
  mkUserCredential (pk r) (username r) (credential_content_type r) (credential_id r)
    (status r) v (external_uuid r) (external_id r) (created r).

Definition set_external_uuid (v : PyVal) (r : UserCredentialRow) : UserCredentialRow :=
  mkUserCredential (pk r) (username r) (credential_content_type r) (credential_id r)
    (status r) (state r) v (external_id r) (created r).

Definition set_external_id (v : PyVal) (r : UserCredentialRow) : UserCredentialRow :=
  mkUserCredential (pk r) (username r) (credential_content_type r) (credential_id r)
    (status r) (state r) (external_uuid r) v (created r).

Record User : Type := mkUser {
  user_username : string;
  email : string;
  first_name : string;
  last_name : string;
  full_name : string
}.

(** Provider payloads, as the module builds them. *)
Record CredlyBadgeData : Type := mkCredlyBadgeData {
  recipient_email : string;
  issued_to_first_name : string;
  issued_to_last_name : string;
  badge_template_id : string;
  issued_at : string
}.

Record AccredibleBadgeData : Type := mkAccredibleBadgeData {
  recipient_name : string;
  recipient_mail : string;
  group_id : Z;
  group_name : string;
  issued_on : string;
  complete : bool
}.

(** Everything the module does to the outside, in the order it happens. *)
Inductive Event : Type :=
| NotifyBadgeAwarded (user_credential : UserCredentialRow)
| NotifyBadgeRevoked (user_credential : UserCredentialRow)
| CredlyIssueBadge (organization : string) (data : CredlyBadgeData)
| CredlyRevokeBadge (organization : string) (badge : PyVal) (reason : string)
| AccredibleIssueBadge (api_config : Z) (data : AccredibleBadgeData)
| AccredibleRevokeBadge (api_config : Z) (badge : PyVal) (expired_on : string).

(** The table behind [self.issued_user_credential_type.objects], the
    credential definitions, the event log (oldest first) and the clock. *)
Record World : Type := mkWorld {
  store : list UserCredentialRow;
  definitions : list Credential;
  log : list Event;
  clock : Z
}.

Definition with_store (s : list UserCredentialRow) (w : World) : World :=
  mkWorld s (definitions w) (log w) (clock w).

Definition with_log (l : list Event) (w : World) : World :=
  mkWorld (store w) (definitions w) l (clock w).

(** ** The monad: state that survives an exception *)

Definition M (A : Type) : Type := World -> (Exception + A) * World.

Definition ret {A} (a : A) : M A := fun w => (inr a, w).

Definition raise {A} (e : Exception) : M A := fun w => (inl e, w).

Definition bind {A B} (c : M A) (k : A -> M B) : M B :=
  fun w =>
    match c w with
    | (inl e, w') => (inl e, w')
    | (inr a, w') => k a w'
    end.

Declare Scope py_scope.
Delimit Scope py_scope with py.
Notation "x <- c ;; k" := (bind c (fun x => k))
  (at level 61, c at next level, right associativity) : py_scope.
Notation "c ;;; k" := (bind c (fun _ => k))
  (at level 61, right associativity) : py_scope.
Open Scope py_scope.

Definition lift {A} (r : Exception + A) : M A := fun w => (r, w).

(** [try: body / except BadgeProviderError: handler; raise]. *)
Definition except_BadgeProviderError {A} (body : M A) (handler : M unit) : M A :=
  fun w =>
    match body w with
    | (inl (BadgeProviderError m), w') =>
        match handler w' with
        | (inl e, w'') => (inl e, w'')
        | (inr _, w'') => (inl (BadgeProviderError m), w'')
        end
    | other => other
    end.

(** [@transaction.atomic]: when the body raises, the database goes back to
    what it was on entry; what is not in the database (the log) stays. *)
Definition transaction_atomic {A} (body : M A) : M A :=
  fun w =>
    match body w with
    | (inl e, w') => (inl e, mkWorld (store w) (definitions w) (log w') (clock w'))
    | other => other
    end.

Definition emit (e : Event) : M unit :=
  fun w => (inr tt, with_log (log w ++ [e]) w).

(** ** Collaborators that live outside the module

    The models, the provider clients, the user lookup and the inherited
    setters are imported by [issuers.py]; they are taken as an interface. *)

Definition Attributes : Type := list (string * string).

Class Collaborators : Type := {
  (** [CredlyBadge.STATES.revoked], [AccredibleBadge.STATES.expired] and
      [AccredibleBadge.STATES.accepted]. *)
  CredlyBadge_STATES_revoked : string;
  AccredibleBadge_STATES_expired : string;
  AccredibleBadge_STATES_accepted : string;
  (** What the [state] field of a freshly created row holds. *)
  default_state : UserCredentialType -> PyVal;
  (** The [propagated] attribute of a row. *)
  propagated : UserCredentialRow -> bool;
  get_user_by_username : string -> User;
  (** [strftime("%Y-%m-%d %H:%M:%S %z")] and [gettext]. *)
  strftime : Z -> string;
  (** The same format on the naive local time [datetime.now()] gives: its
      [%z] field is empty. *)
  strftime_naive : Z -> string;
  gettext : string -> string;
  (** What each provider answers to a call, given everything that happened
      before it: an error message or a response. *)
  credly_issue_badge : list Event -> string -> CredlyBadgeData -> string + PyVal;
  credly_revoke_badge : list Event -> string -> PyVal -> string -> string + PyVal;
  accredible_issue_badge : list Event -> Z -> AccredibleBadgeData -> string + PyVal;
  accredible_revoke_badge : list Event -> Z -> PyVal -> string -> string + PyVal;
  (** Setters inherited from [AbstractCredentialIssuer]. *)
  set_credential_attributes : UserCredentialRow -> option Attributes -> M unit;
  set_credential_date_override : UserCredentialRow -> option Z -> M unit
}.

(** With nothing to apply, the inherited setters leave the world alone. *)
Definition setters_idle `{Collaborators} : Prop :=
  forall user_credential w,
    set_credential_attributes user_credential None w = (inr tt, w) /\
    set_credential_date_override user_credential None w = (inr tt, w).

(** ** The object layer *)

Definition key_matches (user : string) (content_type : CredentialType) (id : Z)
    (r : UserCredentialRow) : bool :=
  String.eqb (username r) user
  && CredentialType_eqb (credential_content_type r) content_type
  && Z.eqb (credential_id r) id.

Definition records_for (user : string) (content_type : CredentialType) (id : Z)
    (s : list UserCredentialRow) : list UserCredentialRow :=
  filter (key_matches user content_type id) s.

Definition fresh_pk (s : list UserCredentialRow) : nat := S (list_max (map pk s)).

Definition has_pk (n : nat) (r : UserCredentialRow) : bool := Nat.eqb (pk r) n.

(** [instance.save()]: update the row with this primary key, insert it when
    there is none. *)
Definition save_row (r : UserCredentialRow) (s : list UserCredentialRow) : list UserCredentialRow :=
  if existsb (has_pk (pk r)) s
  then map (fun x => if has_pk (pk r) x then r else x) s
  else s ++ [r].

Definition save (r : UserCredentialRow) : M unit :=
  fun w => (inr tt, with_store (save_row r (store w)) w).

Definition lookup_pk (n : nat) (s : list UserCredentialRow) : option UserCredentialRow :=
  find (has_pk n) s.

Definition is_definition (t : CredentialType) (id : Z) (c : Credential) : bool :=
  CredentialType_eqb (c_type c) t && Z.eqb (c_id c) id.

(** [datetime.now()]: the current instant, read as a naive local time. *)
Definition now : M Z := fun w => (inr (clock w), w).

(** [x or y] on strings. *)
Definition str_or (x y : string) : string :=
  match x with EmptyString => y | _ => x end.

Section Issuers.
Context `{Collaborators}.

Definition REVOCATION_STATES : list (UserCredentialType * string) :=
  [ (CredlyBadge, CredlyBadge_STATES_revoked);
    (AccredibleBadge, AccredibleBadge_STATES_expired) ].

(** [REVOCATION_STATES.get(t)]. *)
Definition REVOCATION_STATES_get (t : UserCredentialType) : option string :=
  option_map snd (find (fun entry => UserCredentialType_eqb (fst entry) t) REVOCATION_STATES).

(** [objects.get_or_create(username=, credential_content_type=,
    credential_id=, defaults={"status": status})]. *)
Definition get_or_create (self : Issuer) (user : string) (content_type : CredentialType)
    (id : Z) (default_status : UserCredentialStatus) : M (UserCredentialRow * bool) :=
  fun w =>
    match records_for user content_type id (store w) with
    | [] =>
        let r := mkUserCredential (fresh_pk (store w)) user content_type id default_status
                   (default_state (issued_user_credential_type self)) PyNone PyNone (clock w) in
        (inr (r, true), with_store (store w ++ [r]) w)
    | [r] => (inr (r, false), w)
    | _ => (inl MultipleObjectsReturned, w)
    end.

(** [self.issued_credential_type.objects.get(id=credential_id)]. *)
Definition get_credential (self : Issuer) (credential_id : Z) : M Credential :=
  fun w =>
    match find (is_definition (issued_credential_type self) credential_id) (definitions w) with
    | Some c => (inr c, w)
    | None => (inl DoesNotExist, w)
    end.

(** [user_credential.credential] followed by the first attribute access on
    it: the generic relation gives None when the definition is gone. *)
Definition credential_of (user_credential : UserCredentialRow) : M Credential :=
  fun w =>
    match find (is_definition (credential_content_type user_credential)
                  (credential_id user_credential)) (definitions w) with
    | Some c => (inr c, w)
    | None => (inl AttributeError, w)
    end.

(** The body of [issue_credential], before the decorator. *)
Definition issue_credential_body (self : Issuer) (credential : Credential) (user : string)
    (requested : UserCredentialStatus) (attributes : option Attributes)
    (date_override : option Z) : M UserCredentialRow :=
  created_pair <- get_or_create self user (c_type credential) (c_id credential) requested ;;
  let user_credential := fst created_pair in
  user_credential <-
    (if negb (py_eq_const (state user_credential)
                (REVOCATION_STATES_get (issued_user_credential_type self)))
     then (let updated := set_status requested user_credential in
           save updated ;;; ret updated)
     else ret user_credential) ;;
  set_credential_attributes user_credential attributes ;;;
  set_credential_date_override user_credential date_override ;;;
  ret user_credential.

Definition issue_credential (self : Issuer) (credential : Credential) (user : string)
    (requested : UserCredentialStatus) (attributes : option Attributes)
    (date_override : option Z) : M UserCredentialRow :=
  transaction_atomic
    (issue_credential_body self credential user requested attributes date_override).

(** [BadgeTemplateIssuer.award], also what [super().award] runs. *)
Definition base_award (self : Issuer) (user : string) (credential_id : Z) : M UserCredentialRow :=
  credential <- get_credential self credential_id ;;
  user_credential <- issue_credential self credential user AWARDED None None ;;
  emit (NotifyBadgeAwarded user_credential) ;;;
  ret user_credential.

(** [BadgeTemplateIssuer.revoke], also what [super().revoke] runs. *)
Definition base_revoke (self : Issuer) (credential_id : Z) (user : string) : M UserCredentialRow :=
  credential <- get_credential self credential_id ;;
  user_credential <- issue_credential self credential user REVOKED None None ;;
  emit (NotifyBadgeRevoked user_credential) ;;;
  ret user_credential.

(** *** Provider clients: a call is logged, then answered. *)

Definition provider_call (e : Event) (answer : list Event -> string + PyVal) : M PyVal :=
  fun w =>
    let w' := with_log (log w ++ [e]) w in
    match answer (log w) with
    | inl message => (inl (BadgeProviderError message), w')
    | inr response => (inr response, w')
    end.

Definition CredlyAPIClient_issue_badge (organization : string) (data : CredlyBadgeData) : M PyVal :=
  provider_call (CredlyIssueBadge organization data)
    (fun history => credly_issue_badge history organization data).

Definition CredlyAPIClient_revoke_badge (organization : string) (badge : PyVal)
    (reason : string) : M PyVal :=
  provider_call (CredlyRevokeBadge organization badge reason)
    (fun history => credly_revoke_badge history organization badge reason).

Definition AccredibleAPIClient_issue_badge (api_config : Z) (data : AccredibleBadgeData) : M PyVal :=
  provider_call (AccredibleIssueBadge api_config data)
    (fun history => accredible_issue_badge history api_config data).

Definition AccredibleAPIClient_revoke_badge (api_config : Z) (badge : PyVal)
    (expired_on : string) : M PyVal :=
  provider_call (AccredibleRevokeBadge api_config badge expired_on)
    (fun history => accredible_revoke_badge history api_config badge expired_on).

(** The handler of every [except BadgeProviderError] in the module. *)
Definition mark_error (user_credential : UserCredentialRow) : M unit :=
  save (set_state (PyStr "error") user_credential).

(** *** CredlyBadgeTemplateIssuer *)

(** The payload [issue_credly_badge] builds: [CredlyBadgeData(...)]. *)
Definition credly_badge_data_of (user_credential : UserCredentialRow)
    (badge_template : Credential) : CredlyBadgeData :=
  let user := get_user_by_username (username user_credential) in
  mkCredlyBadgeData (email user)
    (str_or (first_name user) (user_username user))
    (str_or (last_name user) (user_username user))
    (c_uuid badge_template)
    (strftime (c_created badge_template)).

Definition issue_credly_badge (user_credential : UserCredentialRow) : M UserCredentialRow :=
  badge_template <- credential_of user_credential ;;
  let credly_badge_data := credly_badge_data_of user_credential badge_template in
  response <- except_BadgeProviderError
                (CredlyAPIClient_issue_badge (c_organization_uuid badge_template) credly_badge_data)
                (mark_error user_credential) ;;
  data <- lift (py_get response "data") ;;
  id <- lift (py_get data "id") ;;
  data' <- lift (py_get response "data") ;;
  reported <- lift (py_get data' "state") ;;
  let updated := set_state reported (set_external_uuid id user_credential) in
  save updated ;;;
  ret updated.

Definition revoke_credly_badge (credential_id : Z) (user_credential : UserCredentialRow)
    : M UserCredentialRow :=
  credential <- get_credential CredlyBadgeTemplateIssuer credential_id ;;
  let reason := gettext "Open edX internal user credential was revoked" in
  response <- except_BadgeProviderError
                (CredlyAPIClient_revoke_badge (c_organization_uuid credential)
                   (external_uuid user_credential) reason)
                (mark_error user_credential) ;;
  data <- lift (py_get response "data") ;;
  reported <- lift (py_get data "state") ;;
  let updated := set_state reported user_credential in
  save updated ;;;
  ret updated.

Definition credly_award (user : string) (credential_id : Z) : M UserCredentialRow :=
  credly_badge <- base_award CredlyBadgeTemplateIssuer user credential_id ;;
  if negb (propagated credly_badge)
  then issue_credly_badge credly_badge
  else ret credly_badge.

Definition credly_revoke (credential_id : Z) (user : string) : M UserCredentialRow :=
  user_credential <- base_revoke CredlyBadgeTemplateIssuer credential_id user ;;
  if propagated user_credential
  then revoke_credly_badge credential_id user_credential
  else ret user_credential.

(** *** AccredibleBadgeTemplateIssuer *)

(** The payload [issue_accredible_badge] builds: [AccredibleBadgeData(...)]. *)
Definition accredible_badge_data_of (user_credential : UserCredentialRow)
    (group : Credential) : AccredibleBadgeData :=
  let user := get_user_by_username (username user_credential) in
  mkAccredibleBadgeData (str_or (full_name user) (user_username user)) (email user)
    (c_id group) (c_name group) (strftime (created user_credential)) true.

Definition issue_accredible_badge (user_credential : UserCredentialRow) : M UserCredentialRow :=
  group <- credential_of user_credential ;;
  let accredible_badge_data := accredible_badge_data_of user_credential group in
  response <- except_BadgeProviderError
                (AccredibleAPIClient_issue_badge (c_api_config_id group) accredible_badge_data)
                (mark_error user_credential) ;;
  credential <- lift (py_get response "credential") ;;
  id <- lift (py_get credential "id") ;;
  let updated := set_state (PyStr AccredibleBadge_STATES_accepted)
                   (set_external_id id user_credential) in
  save updated ;;;
  ret updated.

Definition revoke_accredible_badge (credential_id : Z) (user_credential : UserCredentialRow)
    : M UserCredentialRow :=
  credential <- get_credential AccredibleBadgeTemplateIssuer credential_id ;;
  today <- now ;;
  let expired_on := strftime_naive today in
  except_BadgeProviderError
    (AccredibleAPIClient_revoke_badge (c_api_config_id credential)
       (external_id user_credential) expired_on)
    (mark_error user_credential) ;;;
  let updated := set_state (PyStr AccredibleBadge_STATES_expired) user_credential in
  save updated ;;;
  ret updated.

Definition accredible_award (user : string) (credential_id : Z) : M UserCredentialRow :=
  accredible_badge <- base_award AccredibleBadgeTemplateIssuer user credential_id ;;
  if negb (propagated accredible_badge)
  then issue_accredible_badge accredible_badge
  else ret accredible_badge.

Definition accredible_revoke (credential_id : Z) (user : string) : M UserCredentialRow :=
  user_credential <- base_revoke AccredibleBadgeTemplateIssuer credential_id user ;;
  if propagated user_credential
  then revoke_accredible_badge credential_id user_credential
  else ret user_credential.

(** *** Method resolution: [issuer.award(...)] and [issuer.revoke(...)]. *)

Definition award (self : Issuer) (user : string) (credential_id : Z) : M UserCredentialRow :=
  match self with
  | BadgeTemplateIssuer => base_award BadgeTemplateIssuer user credential_id
  | CredlyBadgeTemplateIssuer => credly_award user credential_id
  | AccredibleBadgeTemplateIssuer => accredible_award user credential_id
  end.

Definition revoke (self : Issuer) (credential_id : Z) (user : string) : M UserCredentialRow :=
  match self with
  | BadgeTemplateIssuer => base_revoke BadgeTemplateIssuer credential_id user
  | CredlyBadgeTemplateIssuer => credly_revoke credential_id user
  | AccredibleBadgeTemplateIssuer => accredible_revoke credential_id user
  end.

End Issuers.

(** ** A concrete deployment, used to run the model *)

Module Demo.

Definition alice : User := mkUser "alice" "alice@example.org" "Alice" "" "Alice".

(** The provider accepts every badge, except that Accredible fails for the
    group configured with id 13. *)
#[export] Instance collaborators : Collaborators := {|
  CredlyBadge_STATES_revoked := "revoked";
  AccredibleBadge_STATES_expired := "expired";
  AccredibleBadge_STATES_accepted := "accepted";
  default_state := fun _ => PyStr "created";
  propagated := fun r =>
    match external_uuid r, external_id r with
    | PyNone, PyNone => false
    | _, _ => true
    end;
  get_user_by_username := fun _ => alice;
  strftime := fun _ => "2024-01-01 00:00:00 +0000";
  strftime_naive := fun _ => "2024-01-01 01:00:00 ";
  gettext := fun s => s;
  credly_issue_badge := fun _ organization _ =>
    if String.eqb organization "broken" then inl "credly is down"
    else inr (PyDict [("data", PyDict [("id", PyStr "ext-1"); ("state", PyStr "accepted")])]);
  credly_revoke_badge := fun _ _ _ _ =>
    inr (PyDict [("data", PyDict [("state", PyStr "revoked")])]);
  accredible_issue_badge := fun _ api_config _ =>
    if Z.eqb api_config 13 then inl "accredible is down"
    else inr (PyDict [("credential", PyDict [("id", PyStr "77")])]);
  accredible_revoke_badge := fun _ _ _ _ => inr PyNone;
  set_credential_attributes := fun _ attributes =>
    match attributes with
    | None => ret tt
    | Some _ => raise (OtherError "attribute rejected")
    end;
  set_credential_date_override := fun _ _ => ret tt
|}.

Definition template (t : CredentialType) (id : Z) (organization : string) (api_config : Z)
    : Credential :=
  mkCredential t id "template-uuid" "Course badge" 1700000000 organization api_config.

Definition world0 : World :=
  mkWorld []
    [ template BadgeTemplate 1 "org" 0;
      template CredlyBadgeTemplate 1 "org" 0;
      template CredlyBadgeTemplate 2 "broken" 0;
      template AccredibleGroup 1 "org" 5;
      template AccredibleGroup 2 "org" 13 ]
    [] 1700000500.

(** A Credly badge of alice that the provider reported revoked. *)
Definition revoked_badge : UserCredentialRow :=
  mkUserCredential 1 "alice" CredlyBadgeTemplate 1 REVOKED (PyStr "revoked")
    (PyStr "ext-1") PyNone 1700000100.

Definition world_revoked : World :=
  mkWorld [revoked_badge] (definitions world0) [] 1700000500.

End Demo.

(** ** Vocabulary of the properties *)

(** Primary keys are unique. *)
Definition store_ok (s : list UserCredentialRow) : Prop := NoDup (map pk s).

(** The table holds exactly one row for the key, and it is [r]. *)
Definition tracked (user : string) (t : CredentialType) (id : Z)
    (s : list UserCredentialRow) (r : UserCredentialRow) : Prop :=
  store_ok s /\ records_for user t id s = [r].

Section Vocabulary.
Context `{Collaborators}.

(** The test of the [if] in [issue_credential], before its [not]. *)
Definition guard (self : Issuer) (r : UserCredentialRow) : bool :=
  py_eq_const (state r) (REVOCATION_STATES_get (issued_user_credential_type self)).

Definition new_row (self : Issuer) (user : string) (credential : Credential)
    (requested : UserCredentialStatus) (w : World) : UserCredentialRow :=
  mkUserCredential (fresh_pk (store w)) user (c_type credential) (c_id credential) requested
    (default_state (issued_user_credential_type self)) PyNone PyNone (clock w).

(** The common shape of [BadgeTemplateIssuer.award] and [.revoke]. *)
Definition issue_and_notify (self : Issuer) (requested : UserCredentialStatus)
    (notify : UserCredentialRow -> Event) (credential_id : Z) (user : string)
    : M UserCredentialRow :=
  credential <- get_credential self credential_id ;;
  user_credential <- issue_credential self credential user requested None None ;;
  emit (notify user_credential) ;;;
  ret user_credential.

(** The definition [credential_id] of the issuer's type is in the table. *)
Definition defined (self : Issuer) (credential_id : Z) (w : World) (c : Credential) : Prop :=
  find (is_definition (issued_credential_type self) credential_id) (definitions w) = Some c.

(** The row the base flow ends on: the new row, the old row when the guard
    holds it back, the old row with the requested status otherwise. *)
Definition settled (self : Issuer) (requested : UserCredentialStatus) (user : string)
    (c : Credential) (w : World) : option UserCredentialRow :=
  match records_for user (issued_credential_type self) (c_id c) (store w) with
  | [] => Some (new_row self user c requested w)
  | [r0] => Some (if guard self r0 then r0 else set_status requested r0)
  | _ => None
  end.

(** The generic relation of the row resolves to [c]. *)
Definition linked (user_credential : UserCredentialRow) (w : World) (c : Credential) : Prop :=
  find (is_definition (credential_content_type user_credential)
          (credential_id user_credential)) (definitions w) = Some c.

(** The world after a provider call and the [save] that follows it. *)
Definition after_call (e : Event) (r : UserCredentialRow) (w : World) : World :=
  mkWorld (save_row r (store w)) (definitions w) (log w ++ [e]) (clock w).

(** The event the issue call of a provider issuer leaves in the log, and the
    provider's answer to it. *)
Definition issue_event (self : Issuer) (r : UserCredentialRow) (c : Credential) : option Event :=
  match self with
  | BadgeTemplateIssuer => None
  | CredlyBadgeTemplateIssuer =>
      Some (CredlyIssueBadge (c_organization_uuid c) (credly_badge_data_of r c))
  | AccredibleBadgeTemplateIssuer =>
      Some (AccredibleIssueBadge (c_api_config_id c) (accredible_badge_data_of r c))
  end.

Definition issue_answer (self : Issuer) (history : list Event) (r : UserCredentialRow)
    (c : Credential) : string + PyVal :=
  match self with
  | BadgeTemplateIssuer => inr PyNone
  | CredlyBadgeTemplateIssuer =>
      credly_issue_badge history (c_organization_uuid c) (credly_badge_data_of r c)
  | AccredibleBadgeTemplateIssuer =>
      accredible_issue_badge history (c_api_config_id c) (accredible_badge_data_of r c)
  end.

Definition revoke_event (self : Issuer) (r : UserCredentialRow) (c : Credential) (w : World)
    : option Event :=
  match self with
  | BadgeTemplateIssuer => None
  | CredlyBadgeTemplateIssuer =>
      Some (CredlyRevokeBadge (c_organization_uuid c) (external_uuid r)
              (gettext "Open edX internal user credential was revoked"))
  | AccredibleBadgeTemplateIssuer =>
      Some (AccredibleRevokeBadge (c_api_config_id c) (external_id r)
              (strftime_naive (clock w)))
  end.

(** The provider step of each issuer: [issue_*_badge] and [revoke_*_badge]. *)
Definition issue_step (self : Issuer) (r : UserCredentialRow) : M UserCredentialRow :=
  match self with
  | BadgeTemplateIssuer => ret r
  | CredlyBadgeTemplateIssuer => issue_credly_badge r
  | AccredibleBadgeTemplateIssuer => issue_accredible_badge r
  end.

Definition revoke_step (self : Issuer) (credential_id : Z) (r : UserCredentialRow)
    : M UserCredentialRow :=
  match self with
  | BadgeTemplateIssuer => ret r
  | CredlyBadgeTemplateIssuer => revoke_credly_badge credential_id r
  | AccredibleBadgeTemplateIssuer => revoke_accredible_badge credential_id r
  end.

Definition log_after (e : option Event) (l : list Event) : list Event :=
  match e with Some e => l ++ [e] | None => l end.

(** What a step may do to the tracked row [r]: end on a row [r'] with the
    same primary key and status, leave the definitions alone, add [e] to the
    log and nothing else. *)
Definition follows (user : string) (t : CredentialType) (id : Z)
    (r : UserCredentialRow) (e : option Event) (w w' : World) : Prop :=
  exists r',
    tracked user t id (store w') r' /\ pk r' = pk r /\ status r' = status r
    /\ definitions w' = definitions w /\ log w' = log_after e (log w).

(** Whether [award] (resp. [revoke]) goes on to the provider for row [r]. *)
Definition calls_issue (self : Issuer) (r : UserCredentialRow) : bool :=
  match self with
  | BadgeTemplateIssuer => false
  | _ => negb (propagated r)
  end.

Definition calls_revoke (self : Issuer) (r : UserCredentialRow) : bool :=
  match self with
  | BadgeTemplateIssuer => false
  | _ => propagated r
  end.

End Vocabulary.

(** *** Counting provider calls in the log *)

Definition is_issue_call (e : Event) : bool :=
  match e with
  | CredlyIssueBadge _ _ | AccredibleIssueBadge _ _ => true
  | _ => false
  end.

Definition is_revoke_call (e : Event) : bool :=
  match e with
  | CredlyRevokeBadge _ _ _ | AccredibleRevokeBadge _ _ _ => true
  | _ => false
  end.

Definition issue_calls (l : list Event) : nat := length (filter is_issue_call l).
Definition revoke_calls (l : list Event) : nat := length (filter is_revoke_call l).

(** ** Rows and worlds used as concrete inputs *)

Module Inputs.
Import Demo.

(** Alice's Credly badge right after the base award step. *)
Definition awarded_badge : UserCredentialRow :=
  mkUserCredential 1 "alice" CredlyBadgeTemplate 1 AWARDED (PyStr "created")
    PyNone PyNone 1700000500.

Definition world_awarded : World :=
  mkWorld [awarded_badge] (definitions world0) [NotifyBadgeAwarded awarded_badge] 1700000500.

(** Alice's Accredible badge, awarded and then issued by the provider. *)
Definition accredible_badge : UserCredentialRow :=
  mkUserCredential 1 "alice" AccredibleGroup 1 AWARDED (PyStr "accepted")
    PyNone (PyStr "77") 1700000500.

Definition world_accredible : World :=
  mkWorld [accredible_badge] (definitions world0) [] 1700000500.

Definition credly_template : Credential := template CredlyBadgeTemplate 1 "org" 0.
Definition broken_template : Credential := template CredlyBadgeTemplate 2 "broken" 0.
Definition base_template : Credential := template BadgeTemplate 1 "org" 0.
Definition accredible_group : Credential := template AccredibleGroup 1 "org" 5.

End Inputs.

(** A row of the base issuer that some provider state string was written
    to ("revoked") is awarded again all the same. *)
Definition stale_row : UserCredentialRow :=
  mkUserCredential 4 "alice" BadgeTemplate 1 REVOKED (PyStr "revoked") PyNone PyNone 1700000100.

(** Two rows of other people, to have something to leave alone. *)
Definition crowded_world : World :=
  mkWorld
    [ mkUserCredential 1 "bob" CredlyBadgeTemplate 1 AWARDED (PyStr "accepted")
        (PyStr "ext-9") PyNone 1700000100;
      mkUserCredential 2 "alice" CredlyBadgeTemplate 2 REVOKED (PyStr "revoked")
        (PyStr "ext-8") PyNone 1700000200 ]
    (definitions Demo.world0) [] 1700000500.

(** A deployment in which both providers are down: every call raises. *)
Module Outage.

#[export] Instance collaborators : Collaborators := {|
  CredlyBadge_STATES_revoked := "revoked";
  AccredibleBadge_STATES_expired := "expired";
  AccredibleBadge_STATES_accepted := "accepted";
  default_state := fun _ => PyStr "created";
  propagated := fun r =>
    match external_uuid r, external_id r with
    | PyNone, PyNone => false
    | _, _ => true
    end;
  get_user_by_username := fun _ => Demo.alice;
  strftime := fun _ => "2024-01-01 00:00:00 +0000";
  strftime_naive := fun _ => "2024-01-01 01:00:00 ";
  gettext := fun s => s;
  credly_issue_badge := fun _ _ _ => inl "credly is down";
  credly_revoke_badge := fun _ _ _ _ => inl "credly is down";
  accredible_issue_badge := fun _ _ _ => inl "accredible is down";
  accredible_revoke_badge := fun _ _ _ _ => inl "accredible is down";
  set_credential_attributes := fun _ _ => ret tt;
  set_credential_date_override := fun _ _ => ret tt
|}.

End Outage.

(** A deployment whose Credly answers carry no "data" and whose Accredible
    answers carry no "credential". *)
Module Garbled.

#[export] Instance collaborators : Collaborators := {|
  CredlyBadge_STATES_revoked := "revoked";
  AccredibleBadge_STATES_expired := "expired";
  AccredibleBadge_STATES_accepted := "accepted";
  default_state := fun _ => PyStr "created";
  propagated := fun r =>
    match external_uuid r, external_id r with
    | PyNone, PyNone => false
    | _, _ => true
    end;
  get_user_by_username := fun _ => Demo.alice;
  strftime := fun _ => "2024-01-01 00:00:00 +0000";
  strftime_naive := fun _ => "2024-01-01 01:00:00 ";
  gettext := fun s => s;
  credly_issue_badge := fun _ _ _ => inr (PyDict [("message", PyStr "ok")]);
  credly_revoke_badge := fun _ _ _ _ => inr (PyDict [("message", PyStr "ok")]);
  accredible_issue_badge := fun _ _ _ => inr (PyStr "ok");
  accredible_revoke_badge := fun _ _ _ _ => inr (PyStr "ok");
  set_credential_attributes := fun _ _ => ret tt;
  set_credential_date_override := fun _ _ => ret tt
|}.

End Garbled.

(** A deployment in which a row counts as propagated only while the
    provider holds a live badge for it (an external id and an issuing
    state), Credly cannot issue for the organization "broken", and every
    revoke call raises. *)
Module Strict.

Definition issuing (value : PyVal) : bool :=
  match value with
  | PyStr s => String.eqb s "pending" || String.eqb s "accepted" || String.eqb s "rejected"
  | _ => false
  end.

#[export] Instance collaborators : Collaborators := {|
  CredlyBadge_STATES_revoked := "revoked";
  AccredibleBadge_STATES_expired := "expired";
  AccredibleBadge_STATES_accepted := "accepted";
  default_state := fun _ => PyStr "created";
  propagated := fun r =>
    match external_uuid r, external_id r with
    | PyNone, PyNone => false
    | _, _ => issuing (state r)
    end;
  get_user_by_username := fun _ => Demo.alice;
  strftime := fun _ => "2024-01-01 00:00:00 +0000";
  strftime_naive := fun _ => "2024-01-01 01:00:00 ";
  gettext := fun s => s;
  credly_issue_badge := fun _ organization _ =>
    if String.eqb organization "broken" then inl "credly is down"
    else inr (PyDict [("data", PyDict [("id", PyStr "ext-1"); ("state", PyStr "accepted")])]);
  credly_revoke_badge := fun _ _ _ _ => inl "credly is down";
  accredible_issue_badge := fun _ _ _ =>
    inr (PyDict [("credential", PyDict [("id", PyStr "77")])]);
  accredible_revoke_badge := fun _ _ _ _ => inl "accredible is down";
  set_credential_attributes := fun _ _ => ret tt;
  set_credential_date_override := fun _ _ => ret tt
|}.

(** Alice's badge of the "broken" organization, revoked at the provider. *)
Definition lapsed_badge : UserCredentialRow :=
  mkUserCredential 1 "alice" CredlyBadgeTemplate 2 REVOKED (PyStr "revoked")
    (PyStr "ext-1") PyNone 1700000100.

Definition world_lapsed : World :=
  mkWorld [lapsed_badge] (definitions Demo.world0) [] 1700000500.

End Strict.

(** ** Vocabulary of the further properties *)

(** One write of the module to the table on behalf of a pair: the insert of
    get-or-create, or the [save] of a new version of the pair's row. *)
Inductive touch (user : string) (t : CredentialType) (id : Z)
    : list UserCredentialRow -> list UserCredentialRow -> Prop :=
| touch_insert s r :
    records_for user t id s = [] -> pk r = fresh_pk s -> key_matches user t id r = true ->
    touch user t id s (s ++ [r])
| touch_save s r0 r :
    records_for user t id s = [r0] -> pk r = pk r0 -> key_matches user t id r = true ->
    touch user t id s (save_row r s).

(** Any number of such writes, one after the other. *)
Inductive touches (user : string) (t : CredentialType) (id : Z)
    : list UserCredentialRow -> list UserCredentialRow -> Prop :=
| touches_none s : touches user t id s s
| touches_step s s' s'' :
    touch user t id s s' -> touches user t id s' s'' -> touches user t id s s''.

(** The invariant of the data model: at most one row per pair. *)
Definition unique_keys (s : list UserCredentialRow) : Prop :=
  forall user t id, length (records_for user t id s) <= 1.

(** A response [issue_credly_badge] can read: a dict with a dict under
    "data"; for [issue_accredible_badge], under "credential". *)
Definition has_dict (key : string) (response : PyVal) : bool :=
  match py_get response key with
  | inr (PyDict _) => true
  | _ => false
  end.

Section FurtherVocabulary.
Context `{Collaborators}.

(** The provider's answer to the revoke call of a provider issuer. *)
Definition revoke_answer (self : Issuer) (history : list Event) (r : UserCredentialRow)
    (c : Credential) (w : World) : string + PyVal :=
  match self with
  | BadgeTemplateIssuer => inr PyNone
  | CredlyBadgeTemplateIssuer =>
      credly_revoke_badge history (c_organization_uuid c) (external_uuid r)
        (gettext "Open edX internal user credential was revoked")
  | AccredibleBadgeTemplateIssuer =>
      accredible_revoke_badge history (c_api_config_id c) (external_id r)
        (strftime_naive (clock w))
  end.

End FurtherVocabulary.

(** * Proofs *)

(** ** Facts about the table *)

Lemma setters_idle_demo : @setters_idle Demo.collaborators.
Proof. intros user_credential w; split; reflexivity. Qed.

Lemma pk_below_fresh (s : list UserCredentialRow) (x : UserCredentialRow) :
  In x s -> pk x < fresh_pk s.
Proof.
  intros Hin. unfold fresh_pk.
  assert (Hall : Forall (fun k => k <= list_max (map pk s)) (map pk s))
    by (apply list_max_le; lia).
  rewrite Forall_forall in Hall.
  specialize (Hall (pk x) (in_map pk s x Hin)). lia.
Qed.

Lemma fresh_pk_absent (s : list UserCredentialRow) (x : UserCredentialRow) :
  In x s -> has_pk (fresh_pk s) x = false.
Proof.
  intros Hin. unfold has_pk. apply Nat.eqb_neq.
  pose proof (pk_below_fresh s x Hin). lia.
Qed.

Lemma existsb_fresh (s : list UserCredentialRow) :
  existsb (has_pk (fresh_pk s)) s = false.
Proof.
  destruct (existsb (has_pk (fresh_pk s)) s) eqn:E; [|reflexivity].
  apply existsb_exists in E. destruct E as [x [Hin Hx]].
  rewrite (fresh_pk_absent s x Hin) in Hx. discriminate.
Qed.

Lemma replace_untouched (r : UserCredentialRow) (s : list UserCredentialRow) :
  (forall x, In x s -> has_pk (pk r) x = false) ->
  map (fun x => if has_pk (pk r) x then r else x) s = s.
Proof.
  induction s as [|a s IH]; intros Hs; simpl; [reflexivity|].
  rewrite (Hs a (or_introl eq_refl)). f_equal.
  apply IH. intros x Hx. apply Hs. now right.
Qed.

(** Saving the row that was just inserted under a fresh key changes nothing. *)
Lemma save_row_appended (r : UserCredentialRow) (s : list UserCredentialRow) :
  pk r = fresh_pk s -> save_row r (s ++ [r]) = s ++ [r].
Proof.
  intros Hpk. unfold save_row.
  rewrite existsb_app. simpl. unfold has_pk at 2. rewrite Nat.eqb_refl.
  rewrite orb_true_r. rewrite map_app. simpl.
  unfold has_pk at 2. rewrite Nat.eqb_refl.
  rewrite replace_untouched; [reflexivity|].
  intros x Hx. rewrite Hpk. now apply fresh_pk_absent.
Qed.

Lemma store_ok_appended (r : UserCredentialRow) (s : list UserCredentialRow) :
  store_ok s -> pk r = fresh_pk s -> store_ok (s ++ [r]).
Proof.
  unfold store_ok. intros Hs Hpk. rewrite map_app. simpl.
  apply NoDup_app; [assumption | constructor; [intros []|constructor] |].
  intros k Hk [Hr|[]]. apply in_map_iff in Hk. destruct Hk as [x [Hx Hin]].
  pose proof (pk_below_fresh s x Hin). lia.
Qed.

Lemma records_for_appended user t id (r : UserCredentialRow) (s : list UserCredentialRow) :
  records_for user t id s = [] -> key_matches user t id r = true ->
  records_for user t id (s ++ [r]) = [r].
Proof.
  unfold records_for. intros Hs Hr. rewrite filter_app, Hs. simpl. now rewrite Hr.
Qed.

Lemma unique_pk (s : list UserCredentialRow) (x y : UserCredentialRow) :
  store_ok s -> In x s -> In y s -> pk x = pk y -> x = y.
Proof.
  unfold store_ok. induction s as [|a s IH]; simpl; intros Hnd Hx Hy Hpk; [contradiction|].
  inversion Hnd as [|? ? Hnotin Hnd']; subst.
  destruct Hx as [->|Hx], Hy as [->|Hy]; try reflexivity.
  - exfalso. apply Hnotin. rewrite Hpk. now apply in_map.
  - exfalso. apply Hnotin. rewrite <- Hpk. now apply in_map.
  - now apply IH.
Qed.

Lemma map_pk_replace (r : UserCredentialRow) (s : list UserCredentialRow) :
  map pk (map (fun x => if has_pk (pk r) x then r else x) s) = map pk s.
Proof.
  induction s as [|a s IH]; simpl; [reflexivity|]. rewrite IH. f_equal.
  destruct (has_pk (pk r) a) eqn:E; [|reflexivity].
  unfold has_pk in E. apply Nat.eqb_eq in E. now symmetry.
Qed.

Lemma records_for_in user t id (s : list UserCredentialRow) (r : UserCredentialRow) :
  records_for user t id s = [r] -> In r s /\ key_matches user t id r = true.
Proof.
  intros Hs. assert (Hin : In r (records_for user t id s)) by (rewrite Hs; now left).
  unfold records_for in Hin. now apply filter_In in Hin.
Qed.

Lemma filter_replace user t id (r r0 : UserCredentialRow) (s : list UserCredentialRow) :
  (forall x, In x s -> pk x = pk r -> x = r0) ->
  key_matches user t id r0 = true -> key_matches user t id r = true ->
  filter (key_matches user t id) (map (fun x => if has_pk (pk r) x then r else x) s)
  = map (fun x => if has_pk (pk r) x then r else x) (filter (key_matches user t id) s).
Proof.
  intros Huniq Hk0 Hk. induction s as [|a s IH]; simpl; [reflexivity|].
  assert (IH' : filter (key_matches user t id)
                  (map (fun x => if has_pk (pk r) x then r else x) s)
                = map (fun x => if has_pk (pk r) x then r else x)
                    (filter (key_matches user t id) s)).
  { apply IH. intros x Hx. apply Huniq. now right. }
  destruct (has_pk (pk r) a) eqn:E.
  - assert (a = r0).
    { apply Huniq; [now left|]. unfold has_pk in E. now apply Nat.eqb_eq in E. }
    subst a. rewrite Hk, Hk0. simpl. rewrite E. now f_equal.
  - destruct (key_matches user t id a); simpl; [rewrite E|]; now rewrite IH'.
Qed.

(** The workhorse: saving a new version of the tracked row keeps the key
    tracked, at the new version. *)
Lemma save_row_tracked user t id (s : list UserCredentialRow) (r0 r : UserCredentialRow) :
  tracked user t id s r0 -> pk r = pk r0 -> key_matches user t id r = true ->
  tracked user t id (save_row r s) r.
Proof.
  intros [Hok Hrec] Hpk Hkey.
  destruct (records_for_in _ _ _ _ _ Hrec) as [Hin Hk0].
  assert (Hex : existsb (has_pk (pk r)) s = true).
  { apply existsb_exists. exists r0. split; [assumption|].
    unfold has_pk. apply Nat.eqb_eq. now symmetry. }
  unfold save_row. rewrite Hex. split.
  - unfold store_ok. now rewrite map_pk_replace.
  - unfold records_for in *. rewrite (filter_replace user t id r r0).
    + rewrite Hrec. simpl. unfold has_pk. rewrite <- Hpk, Nat.eqb_refl. reflexivity.
    + intros x Hx Hx'. apply (unique_pk s); try assumption. congruence.
    + assumption.
    + assumption.
Qed.

Lemma tracked_appended user t id (s : list UserCredentialRow) (r : UserCredentialRow) :
  store_ok s -> records_for user t id s = [] -> pk r = fresh_pk s ->
  key_matches user t id r = true -> tracked user t id (s ++ [r]) r.
Proof.
  intros Hok Hrec Hpk Hkey. split.
  - now apply store_ok_appended.
  - now apply records_for_appended.
Qed.

Lemma key_matches_refl (r : UserCredentialRow) :
  key_matches (username r) (credential_content_type r) (credential_id r) r = true.
Proof.
  unfold key_matches. rewrite String.eqb_refl, Z.eqb_refl.
  now destruct (credential_content_type r).
Qed.

Lemma CredentialType_eqb_eq (a b : CredentialType) :
  CredentialType_eqb a b = true -> a = b.
Proof. destruct a, b; simpl; congruence. Qed.

Lemma key_matches_fields user t id (r : UserCredentialRow) :
  key_matches user t id r = true ->
  username r = user /\ credential_content_type r = t /\ credential_id r = id.
Proof.
  unfold key_matches. intros Hk.
  apply andb_true_iff in Hk. destruct Hk as [Hk Hid].
  apply andb_true_iff in Hk. destruct Hk as [Hu Ht].
  apply String.eqb_eq in Hu. apply CredentialType_eqb_eq in Ht. apply Z.eqb_eq in Hid.
  auto.
Qed.

(** ** What [issue_credential] does, case by case *)

Section IssueCredential.
Context `{Collaborators}.
Hypothesis idle : setters_idle.

Ltac run_setters :=
  repeat match goal with
  | |- context [set_credential_attributes ?r None ?w] =>
      rewrite (proj1 (idle r w))
  | |- context [set_credential_date_override ?r None ?w] =>
      rewrite (proj2 (idle r w))
  end.

Lemma issue_credential_created self credential user requested w :
  records_for user (c_type credential) (c_id credential) (store w) = [] ->
  issue_credential self credential user requested None None w
  = (inr (new_row self user credential requested w),
     with_store (store w ++ [new_row self user credential requested w]) w).
Proof.
  intros Hrec.
  unfold issue_credential, transaction_atomic, issue_credential_body, bind, get_or_create.
  rewrite Hrec. cbn [fst state].
  destruct (py_eq_const (default_state (issued_user_credential_type self))
              (REVOCATION_STATES_get (issued_user_credential_type self))) eqn:G;
    cbn [negb]; unfold ret, save; cbn [store with_store];
    fold (new_row self user credential requested w).
  - run_setters. reflexivity.
  - change (set_status requested (new_row self user credential requested w))
      with (new_row self user credential requested w).
    rewrite save_row_appended by reflexivity.
    run_setters. reflexivity.
Qed.

Lemma issue_credential_guarded self credential user requested w r0 :
  records_for user (c_type credential) (c_id credential) (store w) = [r0] ->
  guard self r0 = true ->
  issue_credential self credential user requested None None w = (inr r0, w).
Proof.
  unfold guard. intros Hrec G.
  unfold issue_credential, transaction_atomic, issue_credential_body, bind, get_or_create.
  rewrite Hrec. cbn [fst]. rewrite G. cbn [negb]. unfold ret. run_setters. reflexivity.
Qed.

Lemma issue_credential_overwrites self credential user requested w r0 :
  records_for user (c_type credential) (c_id credential) (store w) = [r0] ->
  guard self r0 = false ->
  issue_credential self credential user requested None None w
  = (inr (set_status requested r0),
     with_store (save_row (set_status requested r0) (store w)) w).
Proof.
  unfold guard. intros Hrec G.
  unfold issue_credential, transaction_atomic, issue_credential_body, bind, get_or_create.
  rewrite Hrec. cbn [fst]. rewrite G. cbn [negb]. unfold ret, save. run_setters. reflexivity.
Qed.

Lemma issue_credential_multiple self credential user requested attributes date_override
    w a b rest :
  records_for user (c_type credential) (c_id credential) (store w) = a :: b :: rest ->
  issue_credential self credential user requested attributes date_override w
  = (inl MultipleObjectsReturned, w).
Proof.
  intros Hrec.
  unfold issue_credential, transaction_atomic, issue_credential_body, bind, get_or_create.
  rewrite Hrec. destruct w; reflexivity.
Qed.

End IssueCredential.

(** ** What the base [award] and [revoke] do *)

Section BaseFlow.
Context `{Collaborators}.
Hypothesis idle : setters_idle.

Lemma base_award_unfold self user credential_id :
  base_award self user credential_id
  = issue_and_notify self AWARDED NotifyBadgeAwarded credential_id user.
Proof. reflexivity. Qed.

Lemma base_revoke_unfold self credential_id user :
  base_revoke self credential_id user
  = issue_and_notify self REVOKED NotifyBadgeRevoked credential_id user.
Proof. reflexivity. Qed.

Lemma defined_key self credential_id w c :
  defined self credential_id w c ->
  c_type c = issued_credential_type self /\ c_id c = credential_id.
Proof.
  unfold defined. intros Hf. apply find_some in Hf. destruct Hf as [_ Hd].
  unfold is_definition in Hd. apply andb_true_iff in Hd. destruct Hd as [Ht Hi].
  apply CredentialType_eqb_eq in Ht. apply Z.eqb_eq in Hi. auto.
Qed.

Lemma flow_created self requested notify credential_id user w c :
  defined self credential_id w c ->
  records_for user (issued_credential_type self) credential_id (store w) = [] ->
  issue_and_notify self requested notify credential_id user w
  = (inr (new_row self user c requested w),
     mkWorld (store w ++ [new_row self user c requested w]) (definitions w)
       (log w ++ [notify (new_row self user c requested w)]) (clock w)).
Proof.
  intros Hdef Hrec. destruct (defined_key _ _ _ _ Hdef) as [Ht Hi].
  unfold issue_and_notify, bind, get_credential. rewrite Hdef.
  rewrite (issue_credential_created idle) by (rewrite Ht, Hi; exact Hrec).
  reflexivity.
Qed.

Lemma flow_guarded self requested notify credential_id user w c r0 :
  defined self credential_id w c ->
  records_for user (issued_credential_type self) credential_id (store w) = [r0] ->
  guard self r0 = true ->
  issue_and_notify self requested notify credential_id user w
  = (inr r0, with_log (log w ++ [notify r0]) w).
Proof.
  intros Hdef Hrec G. destruct (defined_key _ _ _ _ Hdef) as [Ht Hi].
  unfold issue_and_notify, bind, get_credential. rewrite Hdef.
  rewrite (issue_credential_guarded idle) with (r0 := r0);
    [reflexivity | rewrite Ht, Hi; exact Hrec | exact G].
Qed.

Lemma flow_overwrites self requested notify credential_id user w c r0 :
  defined self credential_id w c ->
  records_for user (issued_credential_type self) credential_id (store w) = [r0] ->
  guard self r0 = false ->
  issue_and_notify self requested notify credential_id user w
  = (inr (set_status requested r0),
     mkWorld (save_row (set_status requested r0) (store w)) (definitions w)
       (log w ++ [notify (set_status requested r0)]) (clock w)).
Proof.
  intros Hdef Hrec G. destruct (defined_key _ _ _ _ Hdef) as [Ht Hi].
  unfold issue_and_notify, bind, get_credential. rewrite Hdef.
  rewrite (issue_credential_overwrites idle) with (r0 := r0);
    [reflexivity | rewrite Ht, Hi; exact Hrec | exact G].
Qed.

(** In one statement: when the key has at most one row, the flow returns the
    settled row, leaves the key tracked at it, logs one notification about
    it and touches nothing else. *)
Lemma flow_settles self requested notify credential_id user w c r :
  defined self credential_id w c ->
  store_ok (store w) ->
  settled self requested user c w = Some r ->
  exists w',
    issue_and_notify self requested notify credential_id user w = (inr r, w')
    /\ tracked user (issued_credential_type self) credential_id (store w') r
    /\ definitions w' = definitions w
    /\ log w' = log w ++ [notify r]
    /\ clock w' = clock w.
Proof.
  intros Hdef Hok Hset. destruct (defined_key _ _ _ _ Hdef) as [Ht Hi].
  unfold settled in Hset. rewrite Hi in Hset.
  destruct (records_for user (issued_credential_type self) credential_id (store w))
    as [|r0 [|r1 rest]] eqn:Hrec; [| |discriminate].
  - injection Hset as <-. eexists. split; [now apply flow_created|].
    cbn [store definitions log clock].
    refine (conj _ (conj eq_refl (conj eq_refl eq_refl))).
    apply tracked_appended; try assumption; try reflexivity.
    unfold new_row, key_matches. cbn. rewrite Ht, Hi, String.eqb_refl, Z.eqb_refl.
    now destruct (issued_credential_type self).
  - destruct (records_for_in _ _ _ _ _ Hrec) as [Hin Hkey].
    destruct (guard self r0) eqn:G; injection Hset as <-.
    + eexists. split; [now apply flow_guarded with (c := c)|].
      cbn [store definitions log clock with_log].
      refine (conj _ (conj eq_refl (conj eq_refl eq_refl))). split; assumption.
    + eexists. split; [now apply flow_overwrites with (c := c)|].
      cbn [store definitions log clock].
      refine (conj _ (conj eq_refl (conj eq_refl eq_refl))).
      apply save_row_tracked with (r0 := r0); [split; assumption | reflexivity | exact Hkey].
Qed.

End BaseFlow.

(** ** What the provider steps do *)

Lemma lookup_saved (r : UserCredentialRow) (s : list UserCredentialRow) :
  lookup_pk (pk r) (save_row r s) = Some r.
Proof.
  unfold lookup_pk, save_row.
  destruct (existsb (has_pk (pk r)) s) eqn:E.
  - induction s as [|a s IH]; simpl in *; [discriminate|].
    destruct (has_pk (pk r) a) eqn:Ea; simpl.
    + unfold has_pk. now rewrite Nat.eqb_refl.
    + rewrite Ea. now apply IH.
  - induction s as [|a s IH]; simpl in *.
    + unfold has_pk. now rewrite Nat.eqb_refl.
    + apply orb_false_iff in E. destruct E as [Ea Es]. rewrite Ea. now apply IH.
Qed.

Section ProviderSteps.
Context `{Collaborators}.

Lemma issue_credly_badge_error user_credential w c message :
  linked user_credential w c ->
  credly_issue_badge (log w) (c_organization_uuid c)
    (credly_badge_data_of user_credential c) = inl message ->
  issue_credly_badge user_credential w
  = (inl (BadgeProviderError message),
     after_call (CredlyIssueBadge (c_organization_uuid c)
                   (credly_badge_data_of user_credential c))
       (set_state (PyStr "error") user_credential) w).
Proof.
  intros Hl Ha.
  unfold issue_credly_badge, bind, credential_of. rewrite Hl.
  unfold except_BadgeProviderError, CredlyAPIClient_issue_badge, provider_call.
  rewrite Ha. reflexivity.
Qed.

Lemma issue_credly_badge_success user_credential w c response data id reported :
  linked user_credential w c ->
  credly_issue_badge (log w) (c_organization_uuid c)
    (credly_badge_data_of user_credential c) = inr response ->
  py_get response "data" = inr data ->
  py_get data "id" = inr id ->
  py_get data "state" = inr reported ->
  issue_credly_badge user_credential w
  = (inr (set_state reported (set_external_uuid id user_credential)),
     after_call (CredlyIssueBadge (c_organization_uuid c)
                   (credly_badge_data_of user_credential c))
       (set_state reported (set_external_uuid id user_credential)) w).
Proof.
  intros Hl Ha Hd Hi Hs.
  unfold issue_credly_badge, bind, credential_of. rewrite Hl.
  unfold except_BadgeProviderError, CredlyAPIClient_issue_badge, provider_call.
  rewrite Ha. unfold lift. rewrite Hd, Hi, Hs. reflexivity.
Qed.

Lemma issue_accredible_badge_error user_credential w c message :
  linked user_credential w c ->
  accredible_issue_badge (log w) (c_api_config_id c)
    (accredible_badge_data_of user_credential c) = inl message ->
  issue_accredible_badge user_credential w
  = (inl (BadgeProviderError message),
     after_call (AccredibleIssueBadge (c_api_config_id c)
                   (accredible_badge_data_of user_credential c))
       (set_state (PyStr "error") user_credential) w).
Proof.
  intros Hl Ha.
  unfold issue_accredible_badge, bind, credential_of. rewrite Hl.
  unfold except_BadgeProviderError, AccredibleAPIClient_issue_badge, provider_call.
  rewrite Ha. reflexivity.
Qed.

Lemma issue_accredible_badge_success user_credential w c response credential id :
  linked user_credential w c ->
  accredible_issue_badge (log w) (c_api_config_id c)
    (accredible_badge_data_of user_credential c) = inr response ->
  py_get response "credential" = inr credential ->
  py_get credential "id" = inr id ->
  issue_accredible_badge user_credential w
  = (inr (set_state (PyStr AccredibleBadge_STATES_accepted)
            (set_external_id id user_credential)),
     after_call (AccredibleIssueBadge (c_api_config_id c)
                   (accredible_badge_data_of user_credential c))
       (set_state (PyStr AccredibleBadge_STATES_accepted)
          (set_external_id id user_credential)) w).
Proof.
  intros Hl Ha Hc Hi.
  unfold issue_accredible_badge, bind, credential_of. rewrite Hl.
  unfold except_BadgeProviderError, AccredibleAPIClient_issue_badge, provider_call.
  rewrite Ha. unfold lift. rewrite Hc, Hi. reflexivity.
Qed.

Lemma revoke_accredible_badge_success credential_id user_credential w c response :
  defined AccredibleBadgeTemplateIssuer credential_id w c ->
  accredible_revoke_badge (log w) (c_api_config_id c) (external_id user_credential)
    (strftime_naive (clock w)) = inr response ->
  revoke_accredible_badge credential_id user_credential w
  = (inr (set_state (PyStr AccredibleBadge_STATES_expired) user_credential),
     after_call (AccredibleRevokeBadge (c_api_config_id c) (external_id user_credential)
                   (strftime_naive (clock w)))
       (set_state (PyStr AccredibleBadge_STATES_expired) user_credential) w).
Proof.
  intros Hd Ha.
  unfold revoke_accredible_badge, bind, get_credential. rewrite Hd.
  unfold now, except_BadgeProviderError, AccredibleAPIClient_revoke_badge, provider_call.
  rewrite Ha. reflexivity.
Qed.

End ProviderSteps.

(** ** The provider step seen from the table and the log *)

Section Tracking.
Context `{Collaborators}.

Lemma follows_idle user t id r w :
  tracked user t id (store w) r -> follows user t id r None w w.
Proof. intros Ht. exists r. repeat split; try reflexivity; apply Ht. Qed.

Lemma follows_logged user t id r e w :
  tracked user t id (store w) r ->
  follows user t id r (Some e) w
    (mkWorld (store w) (definitions w) (log w ++ [e]) (clock w)).
Proof. intros Ht. exists r. repeat split; try reflexivity; apply Ht. Qed.

Lemma follows_saved user t id r r' e (w : World) :
  tracked user t id (store w) r ->
  pk r' = pk r -> status r' = status r -> key_matches user t id r' = true ->
  follows user t id r (Some e) w
    (mkWorld (save_row r' (store w)) (definitions w) (log w ++ [e]) (clock w)).
Proof.
  intros Ht Hpk Hst Hkey. exists r'.
  refine (conj _ (conj Hpk (conj Hst (conj eq_refl eq_refl)))).
  cbn [store]. now apply save_row_tracked with (r0 := r).
Qed.

Ltac settle_step Ht Hkey :=
  unfold after_call, with_store, with_log; cbn [store definitions log clock];
  first
    [ apply follows_logged; exact Ht
    | apply follows_saved; [exact Ht | reflexivity | reflexivity | exact Hkey] ].

Lemma issue_step_follows self user t id r c w :
  self <> BadgeTemplateIssuer ->
  tracked user t id (store w) r -> linked r w c ->
  follows user t id r (issue_event self r c) w (snd (issue_step self r w)).
Proof.
  intros Hself Ht Hl.
  assert (Hkey : key_matches user t id r = true)
    by (destruct Ht as [_ Hrec]; now apply records_for_in in Hrec).
  destruct self; [contradiction | |]; cbn [issue_step issue_event].
  - unfold issue_credly_badge, bind, credential_of. rewrite Hl.
    unfold except_BadgeProviderError, CredlyAPIClient_issue_badge, provider_call, lift.
    destruct (credly_issue_badge _ _ _) as [m|response]; cbn [snd fst mark_error save].
    + settle_step Ht Hkey.
    + destruct (py_get response "data") as [e|data]; cbn [snd]; [settle_step Ht Hkey|].
      destruct (py_get data "id") as [e|i]; cbn [snd]; [settle_step Ht Hkey|].
      destruct (py_get data "state") as [e|st]; cbn [snd]; settle_step Ht Hkey.
  - unfold issue_accredible_badge, bind, credential_of. rewrite Hl.
    unfold except_BadgeProviderError, AccredibleAPIClient_issue_badge, provider_call, lift.
    destruct (accredible_issue_badge _ _ _) as [m|response]; cbn [snd fst mark_error save].
    + settle_step Ht Hkey.
    + destruct (py_get response "credential") as [e|cr]; cbn [snd]; [settle_step Ht Hkey|].
      destruct (py_get cr "id") as [e|i]; cbn [snd]; settle_step Ht Hkey.
Qed.

Lemma revoke_step_follows self user t id r c credential_id w :
  self <> BadgeTemplateIssuer ->
  tracked user t id (store w) r -> defined self credential_id w c ->
  follows user t id r (revoke_event self r c w) w (snd (revoke_step self credential_id r w)).
Proof.
  intros Hself Ht Hd.
  assert (Hkey : key_matches user t id r = true)
    by (destruct Ht as [_ Hrec]; now apply records_for_in in Hrec).
  destruct self; [contradiction | |]; cbn [revoke_step revoke_event].
  - unfold revoke_credly_badge, bind, get_credential. rewrite Hd.
    unfold except_BadgeProviderError, CredlyAPIClient_revoke_badge, provider_call, lift.
    destruct (credly_revoke_badge _ _ _ _) as [m|response]; cbn [snd fst mark_error save].
    + settle_step Ht Hkey.
    + destruct (py_get response "data") as [e|data]; cbn [snd]; [settle_step Ht Hkey|].
      destruct (py_get data "state") as [e|st]; cbn [snd]; settle_step Ht Hkey.
  - unfold revoke_accredible_badge, bind, get_credential. rewrite Hd.
    unfold now, except_BadgeProviderError, AccredibleAPIClient_revoke_badge, provider_call.
    destruct (accredible_revoke_badge _ _ _ _) as [m|response]; cbn [snd fst mark_error save];
      settle_step Ht Hkey.
Qed.

End Tracking.

(** ** [award] and [revoke] as the base flow followed by the provider step *)

Section Dispatch.
Context `{Collaborators}.
Hypothesis idle : setters_idle.

Lemma tracked_linked self user credential_id r (w w1 : World) c :
  defined self credential_id w c ->
  definitions w1 = definitions w ->
  tracked user (issued_credential_type self) credential_id (store w1) r ->
  linked r w1 c.
Proof.
  intros Hd Hdefs [_ Hrec]. apply records_for_in in Hrec. destruct Hrec as [_ Hkey].
  apply key_matches_fields in Hkey. destruct Hkey as [_ [Ht Hi]].
  unfold linked. rewrite Ht, Hi, Hdefs. exact Hd.
Qed.

Lemma award_run self user credential_id w c r :
  defined self credential_id w c ->
  store_ok (store w) ->
  settled self AWARDED user c w = Some r ->
  exists w1,
    base_award self user credential_id w = (inr r, w1)
    /\ tracked user (issued_credential_type self) credential_id (store w1) r
    /\ definitions w1 = definitions w
    /\ log w1 = log w ++ [NotifyBadgeAwarded r]
    /\ clock w1 = clock w
    /\ award self user credential_id w
       = (if calls_issue self r then issue_step self r w1 else (inr r, w1)).
Proof.
  intros Hd Hok Hs.
  destruct (flow_settles idle self AWARDED NotifyBadgeAwarded credential_id user w c r Hd Hok Hs)
    as [w1 [Hrun [Ht [Hdefs [Hlog Hclock]]]]].
  exists w1. rewrite base_award_unfold.
  refine (conj Hrun (conj Ht (conj Hdefs (conj Hlog (conj Hclock _))))).
  destruct self; cbn [award calls_issue issue_step].
  - rewrite base_award_unfold. exact Hrun.
  - unfold credly_award, bind. rewrite base_award_unfold, Hrun.
    destruct (propagated r); reflexivity.
  - unfold accredible_award, bind. rewrite base_award_unfold, Hrun.
    destruct (propagated r); reflexivity.
Qed.

Lemma revoke_run self user credential_id w c r :
  defined self credential_id w c ->
  store_ok (store w) ->
  settled self REVOKED user c w = Some r ->
  exists w1,
    base_revoke self credential_id user w = (inr r, w1)
    /\ tracked user (issued_credential_type self) credential_id (store w1) r
    /\ definitions w1 = definitions w
    /\ log w1 = log w ++ [NotifyBadgeRevoked r]
    /\ clock w1 = clock w
    /\ revoke self credential_id user w
       = (if calls_revoke self r then revoke_step self credential_id r w1 else (inr r, w1)).
Proof.
  intros Hd Hok Hs.
  destruct (flow_settles idle self REVOKED NotifyBadgeRevoked credential_id user w c r Hd Hok Hs)
    as [w1 [Hrun [Ht [Hdefs [Hlog Hclock]]]]].
  exists w1. rewrite base_revoke_unfold.
  refine (conj Hrun (conj Ht (conj Hdefs (conj Hlog (conj Hclock _))))).
  destruct self; cbn [revoke calls_revoke revoke_step].
  - rewrite base_revoke_unfold. exact Hrun.
  - unfold credly_revoke, bind. rewrite base_revoke_unfold, Hrun.
    destruct (propagated r); reflexivity.
  - unfold accredible_revoke, bind. rewrite base_revoke_unfold, Hrun.
    destruct (propagated r); reflexivity.
Qed.

Lemma calls_issue_provider self r : calls_issue self r = true -> self <> BadgeTemplateIssuer.
Proof. destruct self; simpl; congruence. Qed.

Lemma calls_revoke_provider self r : calls_revoke self r = true -> self <> BadgeTemplateIssuer.
Proof. destruct self; simpl; congruence. Qed.

(** Whatever the provider answers, [award] leaves the key tracked at a row
    with the primary key and status the base flow settled on, and logs the
    notification followed by at most one issue call. *)
Lemma award_follows self user credential_id w c r :
  defined self credential_id w c ->
  store_ok (store w) ->
  settled self AWARDED user c w = Some r ->
  exists r',
    tracked user (issued_credential_type self) credential_id
      (store (snd (award self user credential_id w))) r'
    /\ pk r' = pk r /\ status r' = status r
    /\ definitions (snd (award self user credential_id w)) = definitions w
    /\ log (snd (award self user credential_id w))
       = log_after (if calls_issue self r then issue_event self r c else None)
           (log w ++ [NotifyBadgeAwarded r]).
Proof.
  intros Hd Hok Hs.
  destruct (award_run self user credential_id w c r Hd Hok Hs)
    as [w1 [_ [Ht [Hdefs [Hlog [_ Hrun]]]]]].
  rewrite Hrun. destruct (calls_issue self r) eqn:Hc.
  - destruct (issue_step_follows self user _ _ r c w1 (calls_issue_provider self r Hc) Ht
                (tracked_linked self user credential_id r w w1 c Hd Hdefs Ht))
      as [r' [Ht' [Hpk [Hst [Hdefs' Hlog']]]]].
    exists r'. rewrite Hdefs', Hlog', Hdefs, Hlog.
    exact (conj Ht' (conj Hpk (conj Hst (conj eq_refl eq_refl)))).
  - exists r. cbn [snd log_after]. rewrite Hdefs, Hlog.
    exact (conj Ht (conj eq_refl (conj eq_refl (conj eq_refl eq_refl)))).
Qed.

Lemma revoke_follows self user credential_id w c r :
  defined self credential_id w c ->
  store_ok (store w) ->
  settled self REVOKED user c w = Some r ->
  exists r' w1,
    tracked user (issued_credential_type self) credential_id
      (store (snd (revoke self credential_id user w))) r'
    /\ pk r' = pk r /\ status r' = status r
    /\ definitions (snd (revoke self credential_id user w)) = definitions w
    /\ clock w1 = clock w
    /\ log (snd (revoke self credential_id user w))
       = log_after (if calls_revoke self r then revoke_event self r c w1 else None)
           (log w ++ [NotifyBadgeRevoked r]).
Proof.
  intros Hd Hok Hs.
  destruct (revoke_run self user credential_id w c r Hd Hok Hs)
    as [w1 [_ [Ht [Hdefs [Hlog [Hclock Hrun]]]]]].
  rewrite Hrun. destruct (calls_revoke self r) eqn:Hc.
  - assert (Hd1 : defined self credential_id w1 c) by (unfold defined; now rewrite Hdefs).
    destruct (revoke_step_follows self user _ _ r c credential_id w1
                (calls_revoke_provider self r Hc) Ht Hd1)
      as [r' [Ht' [Hpk [Hst [Hdefs' Hlog']]]]].
    exists r', w1. rewrite Hdefs', Hlog', Hdefs, Hlog.
    exact (conj Ht' (conj Hpk (conj Hst (conj eq_refl (conj Hclock eq_refl))))).
  - exists r, w1. cbn [snd log_after]. rewrite Hdefs, Hlog.
    exact (conj Ht (conj eq_refl (conj eq_refl (conj eq_refl (conj Hclock eq_refl))))).
Qed.

End Dispatch.

(** * The claims *)

(** C5. On a successful Credly issue call, [issue_credly_badge] copies the
    response's [data.id] into [external_uuid] and its [data.state] into
    [state], and the row it saved is the one the table holds under that
    primary key. *)
Theorem issue_credly_badge_copies_response `{Collaborators}
    (user_credential : UserCredentialRow) (w : World) (c : Credential)
    (response data id reported : PyVal) :
  linked user_credential w c ->
  credly_issue_badge (log w) (c_organization_uuid c)
    (credly_badge_data_of user_credential c) = inr response ->
  py_get response "data" = inr data ->
  py_get data "id" = inr id ->
  py_get data "state" = inr reported ->
  exists updated w',
    issue_credly_badge user_credential w = (inr updated, w')
    /\ external_uuid updated = id
    /\ state updated = reported
    /\ status updated = status user_credential
    /\ lookup_pk (pk user_credential) (store w') = Some updated.
Proof.
  intros Hl Ha Hd Hi Hs.
  eexists. eexists. split.
  - exact (issue_credly_badge_success user_credential w c response data id reported
             Hl Ha Hd Hi Hs).
  - repeat split. cbn [after_call store].
    change (pk user_credential)
      with (pk (set_state reported (set_external_uuid id user_credential))).
    apply lookup_saved.
Qed.

(** The scenario of the specification: the response
    [{"data": {"id": "ext-1", "state": "accepted"}}]. *)
Lemma issue_credly_badge_copies_response_witness :
  exists updated w',
    @issue_credly_badge Demo.collaborators Inputs.awarded_badge Inputs.world_awarded
      = (inr updated, w')
    /\ external_uuid updated = PyStr "ext-1"
    /\ state updated = PyStr "accepted"
    /\ status updated = AWARDED
    /\ lookup_pk 1 (store w') = Some updated.
Proof.
  apply (@issue_credly_badge_copies_response Demo.collaborators
           Inputs.awarded_badge Inputs.world_awarded Inputs.credly_template
           (PyDict [("data", PyDict [("id", PyStr "ext-1"); ("state", PyStr "accepted")])])
           (PyDict [("id", PyStr "ext-1"); ("state", PyStr "accepted")])
           (PyStr "ext-1") (PyStr "accepted")); reflexivity.
Defined.

(** C6. For the Accredible issuer a successful issue call sets [state] to the
    fixed accepted constant, whatever the response holds besides the id, and
    a successful revoke call sets it to the fixed expired constant; both
    rows are the ones the table holds afterwards. *)
Theorem accredible_state_is_fixed `{Collaborators}
    (issued revoked : UserCredentialRow) (w w0 : World) (c c0 : Credential)
    (credential_id : Z) (response credential id response0 : PyVal) :
  linked issued w c ->
  accredible_issue_badge (log w) (c_api_config_id c)
    (accredible_badge_data_of issued c) = inr response ->
  py_get response "credential" = inr credential ->
  py_get credential "id" = inr id ->
  defined AccredibleBadgeTemplateIssuer credential_id w0 c0 ->
  accredible_revoke_badge (log w0) (c_api_config_id c0) (external_id revoked)
    (strftime_naive (clock w0)) = inr response0 ->
  (exists updated w',
     issue_accredible_badge issued w = (inr updated, w')
     /\ state updated = PyStr AccredibleBadge_STATES_accepted
     /\ external_id updated = id
     /\ lookup_pk (pk issued) (store w') = Some updated)
  /\
  (exists updated w',
     revoke_accredible_badge credential_id revoked w0 = (inr updated, w')
     /\ state updated = PyStr AccredibleBadge_STATES_expired
     /\ lookup_pk (pk revoked) (store w') = Some updated).
Proof.
  intros Hl Ha Hc Hi Hd Hr. split.
  - eexists. eexists. split.
    + exact (issue_accredible_badge_success issued w c response credential id Hl Ha Hc Hi).
    + repeat split. cbn [after_call store].
      change (pk issued)
        with (pk (set_state (PyStr AccredibleBadge_STATES_accepted)
                    (set_external_id id issued))).
      apply lookup_saved.
  - eexists. eexists. split.
    + exact (revoke_accredible_badge_success credential_id revoked w0 c0 response0 Hd Hr).
    + repeat split. cbn [after_call store].
      change (pk revoked)
        with (pk (set_state (PyStr AccredibleBadge_STATES_expired) revoked)).
      apply lookup_saved.
Qed.

Lemma accredible_state_is_fixed_witness :
  (exists updated w',
     @issue_accredible_badge Demo.collaborators Inputs.accredible_badge Inputs.world_accredible
       = (inr updated, w')
     /\ state updated = PyStr "accepted"
     /\ external_id updated = PyStr "77"
     /\ lookup_pk 1 (store w') = Some updated)
  /\
  (exists updated w',
     @revoke_accredible_badge Demo.collaborators 1 Inputs.accredible_badge
       Inputs.world_accredible = (inr updated, w')
     /\ state updated = PyStr "expired"
     /\ lookup_pk 1 (store w') = Some updated).
Proof.
  apply (@accredible_state_is_fixed Demo.collaborators
           Inputs.accredible_badge Inputs.accredible_badge
           Inputs.world_accredible Inputs.world_accredible
           Inputs.accredible_group Inputs.accredible_group 1
           (PyDict [("credential", PyDict [("id", PyStr "77")])])
           (PyDict [("id", PyStr "77")]) (PyStr "77") PyNone); reflexivity.
Defined.

(** Without the decorator the body does leave a partial record: the row
    inserted by get-or-create stays when a later setter raises. *)
Example body_alone_leaves_partial_record :
  @issue_credential_body Demo.collaborators BadgeTemplateIssuer Inputs.base_template
    "alice" AWARDED (Some []) None Demo.world0
  = (inl (OtherError "attribute rejected"),
     with_store
       [mkUserCredential 1 "alice" BadgeTemplate 1 AWARDED (PyStr "created")
          PyNone PyNone 1700000500] Demo.world0).
Proof. reflexivity. Qed.

(** C8. [issue_credential] is all-or-nothing: whichever step raises
    (get-or-create, or a setter applying the attributes or the date override,
    whatever those setters do), the tables are what they were on entry. *)
Theorem issue_credential_atomic `{Collaborators}
    (self : Issuer) (credential : Credential) (user : string)
    (requested : UserCredentialStatus) (attributes : option Attributes)
    (date_override : option Z) (w w' : World) (e : Exception) :
  issue_credential self credential user requested attributes date_override w = (inl e, w') ->
  store w' = store w /\ definitions w' = definitions w.
Proof.
  unfold issue_credential, transaction_atomic.
  destruct (issue_credential_body self credential user requested attributes date_override w)
    as [[e0|r] w0]; intros Heq; [|discriminate].
  injection Heq as _ <-. split; reflexivity.
Qed.

Lemma issue_credential_atomic_witness :
  store (snd (@issue_credential Demo.collaborators BadgeTemplateIssuer Inputs.base_template
                "alice" AWARDED (Some []) None Demo.world0)) = store Demo.world0
  /\ definitions (snd (@issue_credential Demo.collaborators BadgeTemplateIssuer
                         Inputs.base_template "alice" AWARDED (Some []) None Demo.world0))
     = definitions Demo.world0.
Proof.
  apply (@issue_credential_atomic Demo.collaborators BadgeTemplateIssuer Inputs.base_template
           "alice" AWARDED (Some []) None Demo.world0 _ (OtherError "attribute rejected")).
  reflexivity.
Defined.

(** C9. The base issuer has no entry in [REVOCATION_STATES], so the lookup
    gives None; a row whose [state] is a string never equals it, and
    [issue_credential] overwrites [status] with the requested value and
    saves it.  The two provider issuers do have an entry. *)
Theorem base_issuer_always_overwrites `{Collaborators}
    (credential : Credential) (user : string) (requested : UserCredentialStatus)
    (w : World) (r0 : UserCredentialRow) (s : string) :
  setters_idle ->
  records_for user (c_type credential) (c_id credential) (store w) = [r0] ->
  state r0 = PyStr s ->
  REVOCATION_STATES_get (issued_user_credential_type BadgeTemplateIssuer) = None
  /\ guard BadgeTemplateIssuer r0 = false
  /\ issue_credential BadgeTemplateIssuer credential user requested None None w
     = (inr (set_status requested r0),
        with_store (save_row (set_status requested r0) (store w)) w)
  /\ status (set_status requested r0) = requested
  /\ lookup_pk (pk r0) (save_row (set_status requested r0) (store w))
     = Some (set_status requested r0)
  /\ REVOCATION_STATES_get (issued_user_credential_type CredlyBadgeTemplateIssuer)
     = Some CredlyBadge_STATES_revoked
  /\ REVOCATION_STATES_get (issued_user_credential_type AccredibleBadgeTemplateIssuer)
     = Some AccredibleBadge_STATES_expired.
Proof.
  intros idle Hrec Hstate.
  assert (G : guard BadgeTemplateIssuer r0 = false)
    by (unfold guard; rewrite Hstate; reflexivity).
  split; [reflexivity|]. split; [exact G|].
  split; [now apply issue_credential_overwrites|].
  split; [reflexivity|]. split; [|split; reflexivity].
  change (pk r0) with (pk (set_status requested r0)). apply lookup_saved.
Qed.

Lemma base_issuer_always_overwrites_witness :
  @REVOCATION_STATES_get Demo.collaborators (issued_user_credential_type BadgeTemplateIssuer)
    = None
  /\ @guard Demo.collaborators BadgeTemplateIssuer stale_row = false
  /\ @issue_credential Demo.collaborators BadgeTemplateIssuer Inputs.base_template "alice"
       AWARDED None None (with_store [stale_row] Demo.world0)
     = (inr (set_status AWARDED stale_row),
        with_store (save_row (set_status AWARDED stale_row) [stale_row])
          (with_store [stale_row] Demo.world0))
  /\ status (set_status AWARDED stale_row) = AWARDED
  /\ lookup_pk 4 (save_row (set_status AWARDED stale_row) [stale_row])
     = Some (set_status AWARDED stale_row)
  /\ @REVOCATION_STATES_get Demo.collaborators
       (issued_user_credential_type CredlyBadgeTemplateIssuer) = Some "revoked"
  /\ @REVOCATION_STATES_get Demo.collaborators
       (issued_user_credential_type AccredibleBadgeTemplateIssuer) = Some "expired".
Proof.
  apply (@base_issuer_always_overwrites Demo.collaborators Inputs.base_template "alice"
           AWARDED (with_store [stale_row] Demo.world0) stale_row "revoked").
  - exact setters_idle_demo.
  - reflexivity.
  - reflexivity.
Defined.

(** C10. [revoke] for a pair that has no row does not fail: get-or-create
    inserts a row whose status is REVOKED from the creation default, the
    "revoked" notification about it is emitted and the row is returned.
    This is the inherited method on every issuer, and the whole call on the
    base issuer. *)
Theorem revoke_creates_record `{Collaborators}
    (self : Issuer) (credential_id : Z) (user : string) (w : World) (c : Credential) :
  setters_idle ->
  defined self credential_id w c ->
  records_for user (issued_credential_type self) credential_id (store w) = [] ->
  base_revoke self credential_id user w
  = (inr (new_row self user c REVOKED w),
     mkWorld (store w ++ [new_row self user c REVOKED w]) (definitions w)
       (log w ++ [NotifyBadgeRevoked (new_row self user c REVOKED w)]) (clock w))
  /\ status (new_row self user c REVOKED w) = REVOKED
  /\ records_for user (issued_credential_type self) credential_id
       (store w ++ [new_row self user c REVOKED w]) = [new_row self user c REVOKED w]
  /\ (self = BadgeTemplateIssuer ->
      revoke self credential_id user w = base_revoke self credential_id user w).
Proof.
  intros idle Hd Hrec. destruct (defined_key _ _ _ _ Hd) as [Ht Hi].
  split; [rewrite base_revoke_unfold; now apply flow_created|].
  split; [reflexivity|]. split.
  - apply records_for_appended; [exact Hrec|].
    unfold new_row, key_matches. cbn. rewrite Ht, Hi, String.eqb_refl, Z.eqb_refl.
    now destruct (issued_credential_type self).
  - intros ->. reflexivity.
Qed.

Lemma revoke_creates_record_witness :
  @revoke Demo.collaborators BadgeTemplateIssuer 1 "bob" Demo.world0
  = (inr (mkUserCredential 1 "bob" BadgeTemplate 1 REVOKED (PyStr "created")
            PyNone PyNone 1700000500),
     mkWorld
       [mkUserCredential 1 "bob" BadgeTemplate 1 REVOKED (PyStr "created")
          PyNone PyNone 1700000500]
       (definitions Demo.world0)
       [NotifyBadgeRevoked
          (mkUserCredential 1 "bob" BadgeTemplate 1 REVOKED (PyStr "created")
             PyNone PyNone 1700000500)]
       1700000500).
Proof.
  exact (proj1 (@revoke_creates_record Demo.collaborators BadgeTemplateIssuer 1 "bob"
                  Demo.world0 Inputs.base_template setters_idle_demo eq_refl eq_refl)).
Defined.

(** ** Award and revoke through the issuers *)

Lemma settled_existing `{Collaborators} self requested user c credential_id w r0 :
  c_id c = credential_id ->
  records_for user (issued_credential_type self) credential_id (store w) = [r0] ->
  settled self requested user c w
  = Some (if guard self r0 then r0 else set_status requested r0).
Proof. intros Hi Hrec. unfold settled. now rewrite Hi, Hrec. Qed.

Lemma settled_total `{Collaborators} self requested user c credential_id w :
  c_id c = credential_id ->
  length (records_for user (issued_credential_type self) credential_id (store w)) <= 1 ->
  (forall r0, In r0 (records_for user (issued_credential_type self) credential_id (store w)) ->
              guard self r0 = false) ->
  exists r, settled self requested user c w = Some r /\ status r = requested.
Proof.
  intros Hi Hlen Hguard. unfold settled. rewrite Hi.
  destruct (records_for user (issued_credential_type self) credential_id (store w))
    as [|r0 [|r1 rest]].
  - eexists. split; reflexivity.
  - rewrite (Hguard r0 (or_introl eq_refl)). eexists. split; reflexivity.
  - simpl in Hlen. lia.
Qed.

(** C1, as the code has it.  For an issuer whose user-credential type has an
    entry in [REVOCATION_STATES]: when the row of the pair is in that
    terminal state, the inherited award step returns the row untouched
    without raising; after the whole [award], whatever the provider
    answered, the pair still has that one row with its status unchanged;
    when the row is propagated no provider call is made and the whole call
    returns the row without raising; when it is not propagated the whole
    call is the provider's issue step on that row, so that it raises
    exactly when that step does. *)
Theorem award_keeps_terminal_status `{Collaborators}
    (self : Issuer) (user : string) (credential_id : Z) (w : World) (c : Credential)
    (r0 : UserCredentialRow) (terminal : string) :
  setters_idle ->
  defined self credential_id w c ->
  store_ok (store w) ->
  records_for user (issued_credential_type self) credential_id (store w) = [r0] ->
  REVOCATION_STATES_get (issued_user_credential_type self) = Some terminal ->
  state r0 = PyStr terminal ->
  base_award self user credential_id w
    = (inr r0, with_log (log w ++ [NotifyBadgeAwarded r0]) w)
  /\ (exists r',
        records_for user (issued_credential_type self) credential_id
          (store (snd (award self user credential_id w))) = [r']
        /\ pk r' = pk r0 /\ status r' = status r0)
  /\ (propagated r0 = true ->
      award self user credential_id w
      = (inr r0, with_log (log w ++ [NotifyBadgeAwarded r0]) w))
  /\ (propagated r0 = false ->
      award self user credential_id w
      = issue_step self r0 (with_log (log w ++ [NotifyBadgeAwarded r0]) w)).
Proof.
  intros idle Hd Hok Hrec Hterm Hstate.
  destruct (defined_key _ _ _ _ Hd) as [Ht Hi].
  assert (G : guard self r0 = true).
  { unfold guard. rewrite Hterm, Hstate. simpl. apply String.eqb_refl. }
  assert (Hs : settled self AWARDED user c w = Some r0).
  { rewrite (settled_existing self AWARDED user c credential_id w r0 Hi Hrec). now rewrite G. }
  assert (Hbase : base_award self user credential_id w
                  = (inr r0, with_log (log w ++ [NotifyBadgeAwarded r0]) w)).
  { rewrite base_award_unfold. now apply (flow_guarded idle) with (c := c). }
  destruct (award_run idle self user credential_id w c r0 Hd Hok Hs)
    as [w1 [Hrun1 [_ [_ [_ [_ Hrun]]]]]].
  rewrite Hbase in Hrun1. injection Hrun1 as <-.
  split; [exact Hbase|]. split; [|split].
  - destruct (award_follows idle self user credential_id w c r0 Hd Hok Hs)
      as [r' [[_ Hrec'] [Hpk [Hst _]]]].
    exists r'. auto.
  - intros Hprop. rewrite Hrun.
    destruct self; cbn [calls_issue]; try rewrite Hprop; reflexivity.
  - intros Hprop. rewrite Hrun.
    destruct self; [discriminate Hterm | |]; cbn [calls_issue]; rewrite Hprop; reflexivity.
Qed.

Lemma award_keeps_terminal_status_witness :
  @base_award Demo.collaborators CredlyBadgeTemplateIssuer "alice" 1 Demo.world_revoked
    = (inr Demo.revoked_badge,
       with_log [NotifyBadgeAwarded Demo.revoked_badge] Demo.world_revoked)
  /\ (exists r',
        records_for "alice" CredlyBadgeTemplate 1
          (store (snd (@award Demo.collaborators CredlyBadgeTemplateIssuer "alice" 1
                         Demo.world_revoked))) = [r']
        /\ pk r' = 1 /\ status r' = REVOKED)
  /\ (@propagated Demo.collaborators Demo.revoked_badge = true ->
      @award Demo.collaborators CredlyBadgeTemplateIssuer "alice" 1 Demo.world_revoked
      = (inr Demo.revoked_badge,
         with_log [NotifyBadgeAwarded Demo.revoked_badge] Demo.world_revoked))
  /\ (@propagated Demo.collaborators Demo.revoked_badge = false ->
      @award Demo.collaborators CredlyBadgeTemplateIssuer "alice" 1 Demo.world_revoked
      = @issue_step Demo.collaborators CredlyBadgeTemplateIssuer Demo.revoked_badge
          (with_log [NotifyBadgeAwarded Demo.revoked_badge] Demo.world_revoked)).
Proof.
  apply (@award_keeps_terminal_status Demo.collaborators CredlyBadgeTemplateIssuer "alice" 1
           Demo.world_revoked Inputs.credly_template Demo.revoked_badge "revoked").
  - exact setters_idle_demo.
  - reflexivity.
  - repeat constructor; simpl; intuition.
  - reflexivity.
  - reflexivity.
  - reflexivity.
Defined.

(** C1 as it is written fails: the row of the pair is in the terminal state
    of its issuer, it does not count as propagated, and the provider is
    down; [award] then goes to the provider and its error reaches the
    caller.  The status stays REVOKED. *)
Lemma award_on_terminal_row_can_raise :
  records_for "alice" CredlyBadgeTemplate 2 (store Strict.world_lapsed)
    = [Strict.lapsed_badge]
  /\ @REVOCATION_STATES_get Strict.collaborators
       (issued_user_credential_type CredlyBadgeTemplateIssuer) = Some "revoked"
  /\ state Strict.lapsed_badge = PyStr "revoked"
  /\ fst (@award Strict.collaborators CredlyBadgeTemplateIssuer "alice" 2 Strict.world_lapsed)
     = inl (BadgeProviderError "credly is down")
  /\ map status
       (store (snd (@award Strict.collaborators CredlyBadgeTemplateIssuer "alice" 2
                      Strict.world_lapsed))) = [REVOKED].
Proof. repeat split; reflexivity. Qed.

(** C2. Calling [award] twice for a pair, on any issuer and whatever the
    provider answers to either call, leaves exactly one row for the pair,
    with status AWARDED; the row after the second call has the primary key
    of the row after the first, so the second call worked on the existing
    record.  The pair starts with no row, or with one that is not in the
    issuer's terminal state. *)
Theorem award_twice_one_record `{Collaborators}
    (self : Issuer) (user : string) (credential_id : Z) (w : World) (c : Credential) :
  setters_idle ->
  defined self credential_id w c ->
  store_ok (store w) ->
  length (records_for user (issued_credential_type self) credential_id (store w)) <= 1 ->
  (forall r0, In r0 (records_for user (issued_credential_type self) credential_id (store w)) ->
              guard self r0 = false) ->
  exists first second,
    records_for user (issued_credential_type self) credential_id
      (store (snd (award self user credential_id w))) = [first]
    /\ records_for user (issued_credential_type self) credential_id
         (store (snd (award self user credential_id
                        (snd (award self user credential_id w))))) = [second]
    /\ pk second = pk first
    /\ status first = AWARDED
    /\ status second = AWARDED.
Proof.
  intros idle Hd Hok Hlen Hguard.
  destruct (defined_key _ _ _ _ Hd) as [Ht Hi].
  destruct (settled_total self AWARDED user c credential_id w Hi Hlen Hguard)
    as [r1 [Hs1 Hst1]].
  destruct (award_follows idle self user credential_id w c r1 Hd Hok Hs1)
    as [first [[Hok1 Hrec1] [Hpk1 [Hstat1 [Hdefs1 _]]]]].
  set (w1 := snd (award self user credential_id w)) in *.
  assert (Hd1 : defined self credential_id w1 c) by (unfold defined; now rewrite Hdefs1).
  pose proof (settled_existing self AWARDED user c credential_id w1 first Hi Hrec1) as Hs2.
  destruct (award_follows idle self user credential_id w1 c _ Hd1 Hok1 Hs2)
    as [second [[_ Hrec2] [Hpk2 [Hstat2 _]]]].
  exists first, second.
  assert (Hfirst : status first = AWARDED) by congruence.
  refine (conj Hrec1 (conj Hrec2 (conj _ (conj Hfirst _)))).
  - rewrite Hpk2. now destruct (guard self first).
  - rewrite Hstat2. now destruct (guard self first).
Qed.

Lemma award_twice_one_record_witness :
  exists first second,
    records_for "alice" CredlyBadgeTemplate 1
      (store (snd (@award Demo.collaborators CredlyBadgeTemplateIssuer "alice" 1 Demo.world0)))
      = [first]
    /\ records_for "alice" CredlyBadgeTemplate 1
         (store (snd (@award Demo.collaborators CredlyBadgeTemplateIssuer "alice" 1
                        (snd (@award Demo.collaborators CredlyBadgeTemplateIssuer "alice" 1
                                Demo.world0))))) = [second]
    /\ pk second = pk first
    /\ status first = AWARDED
    /\ status second = AWARDED.
Proof.
  apply (@award_twice_one_record Demo.collaborators CredlyBadgeTemplateIssuer "alice" 1
           Demo.world0 Inputs.credly_template).
  - exact setters_idle_demo.
  - reflexivity.
  - constructor.
  - simpl. lia.
  - intros r0 [].
Defined.

Lemma settled_some `{Collaborators} self requested user c credential_id w :
  c_id c = credential_id ->
  length (records_for user (issued_credential_type self) credential_id (store w)) <= 1 ->
  exists r, settled self requested user c w = Some r.
Proof.
  intros Hi Hlen. unfold settled. rewrite Hi.
  destruct (records_for user (issued_credential_type self) credential_id (store w))
    as [|r0 [|r1 rest]]; [eexists; reflexivity | eexists; reflexivity | simpl in Hlen; lia].
Qed.

Lemma settled_status `{Collaborators} self requested user c w r :
  settled self requested user c w = Some r ->
  (forall r0, In r0 (records_for user (issued_credential_type self) (c_id c) (store w)) ->
              guard self r0 = false) ->
  status r = requested.
Proof.
  unfold settled. intros Hs Hguard.
  destruct (records_for user (issued_credential_type self) (c_id c) (store w))
    as [|r0 [|r1 rest]]; [| |discriminate].
  - injection Hs as <-. reflexivity.
  - rewrite (Hguard r0 (or_introl eq_refl)) in Hs. injection Hs as <-. reflexivity.
Qed.

(** C3. When the provider's issue call raises during a Credly or Accredible
    [award]: the same error reaches the caller, the row of the pair is saved
    with state "error" and the status the base step left, which is AWARDED
    unless the guard held an old row back, and the log shows the "awarded"
    notification before the provider call. *)
Theorem provider_error_on_award `{Collaborators}
    (self : Issuer) (user : string) (credential_id : Z) (w : World) (c : Credential)
    (r : UserCredentialRow) (e : Event) (message : string) :
  setters_idle ->
  defined self credential_id w c ->
  store_ok (store w) ->
  settled self AWARDED user c w = Some r ->
  propagated r = false ->
  issue_event self r c = Some e ->
  issue_answer self (log w ++ [NotifyBadgeAwarded r]) r c = inl message ->
  exists w',
    award self user credential_id w = (inl (BadgeProviderError message), w')
    /\ records_for user (issued_credential_type self) credential_id (store w')
       = [set_state (PyStr "error") r]
    /\ state (set_state (PyStr "error") r) = PyStr "error"
    /\ status (set_state (PyStr "error") r) = status r
    /\ log w' = log w ++ [NotifyBadgeAwarded r; e]
    /\ ((forall r0,
           In r0 (records_for user (issued_credential_type self) (c_id c) (store w)) ->
           guard self r0 = false) ->
        status r = AWARDED).
Proof.
  intros idle Hd Hok Hs Hprop He Ha.
  destruct (award_run idle self user credential_id w c r Hd Hok Hs)
    as [w1 [_ [Ht [Hdefs [Hlog [_ Hrun]]]]]].
  pose proof (tracked_linked self user credential_id r w w1 c Hd Hdefs Ht) as Hl.
  assert (Hkey : key_matches user (issued_credential_type self) credential_id r = true)
    by (destruct Ht as [_ Hrec]; now apply records_for_in in Hrec).
  assert (Hsaved : records_for user (issued_credential_type self) credential_id
                     (save_row (set_state (PyStr "error") r) (store w1))
                   = [set_state (PyStr "error") r]).
  { apply (save_row_tracked user _ credential_id (store w1) r); [exact Ht|reflexivity|exact Hkey]. }
  destruct self; cbn [issue_event] in He; [discriminate | |];
    injection He as <-; cbn [calls_issue issue_step issue_answer] in Hrun, Ha;
    rewrite Hprop in Hrun; cbn [negb] in Hrun; rewrite <- Hlog in Ha.
  - rewrite (issue_credly_badge_error r w1 c message Hl Ha) in Hrun.
    eexists. split; [exact Hrun|]. cbn [after_call store log].
    rewrite Hlog, <- app_assoc.
    refine (conj Hsaved (conj eq_refl (conj eq_refl (conj eq_refl _)))).
    now apply settled_status.
  - rewrite (issue_accredible_badge_error r w1 c message Hl Ha) in Hrun.
    eexists. split; [exact Hrun|]. cbn [after_call store log].
    rewrite Hlog, <- app_assoc.
    refine (conj Hsaved (conj eq_refl (conj eq_refl (conj eq_refl _)))).
    now apply settled_status.
Qed.

(** The scenario of the specification: an AccredibleGroup award whose
    provider call raises. *)
Lemma provider_error_on_award_witness :
  exists w',
    @award Demo.collaborators AccredibleBadgeTemplateIssuer "alice" 2 Demo.world0
      = (inl (BadgeProviderError "accredible is down"), w')
    /\ records_for "alice" AccredibleGroup 2 (store w')
       = [mkUserCredential 1 "alice" AccredibleGroup 2 AWARDED (PyStr "error")
            PyNone PyNone 1700000500]
    /\ PyStr "error" = PyStr "error"
    /\ AWARDED = AWARDED
    /\ log w'
       = [NotifyBadgeAwarded
            (mkUserCredential 1 "alice" AccredibleGroup 2 AWARDED (PyStr "created")
               PyNone PyNone 1700000500);
          AccredibleIssueBadge 13
            (mkAccredibleBadgeData "Alice" "alice@example.org" 2 "Course badge"
               "2024-01-01 00:00:00 +0000" true)]
    /\ ((forall r0, In r0 [] ->
           @guard Demo.collaborators AccredibleBadgeTemplateIssuer r0 = false) ->
        AWARDED = AWARDED).
Proof.
  apply (@provider_error_on_award Demo.collaborators AccredibleBadgeTemplateIssuer "alice" 2
           Demo.world0 (Demo.template AccredibleGroup 2 "org" 13)
           (mkUserCredential 1 "alice" AccredibleGroup 2 AWARDED (PyStr "created")
              PyNone PyNone 1700000500)
           (AccredibleIssueBadge 13
              (mkAccredibleBadgeData "Alice" "alice@example.org" 2 "Course badge"
                 "2024-01-01 00:00:00 +0000" true))
           "accredible is down").
  - exact setters_idle_demo.
  - reflexivity.
  - constructor.
  - reflexivity.
  - reflexivity.
  - reflexivity.
  - reflexivity.
Defined.

Lemma issue_calls_app (l l' : list Event) :
  issue_calls (l ++ l') = issue_calls l + issue_calls l'.
Proof. unfold issue_calls. now rewrite filter_app, length_app. Qed.

Lemma revoke_calls_app (l l' : list Event) :
  revoke_calls (l ++ l') = revoke_calls l + revoke_calls l'.
Proof. unfold revoke_calls. now rewrite filter_app, length_app. Qed.

(** C4. On a provider issuer the external calls are gated by [propagated],
    read on the row the inherited step returns: [award] adds exactly one
    issue call to the log when that row is not propagated and none when it
    is; [revoke] adds exactly one revoke call when its row is propagated and
    none when it is not.  This holds whatever the provider answers. *)
Theorem provider_calls_gated `{Collaborators}
    (self : Issuer) (user : string) (credential_id : Z) (w : World) (c : Credential) :
  setters_idle ->
  self <> BadgeTemplateIssuer ->
  defined self credential_id w c ->
  store_ok (store w) ->
  length (records_for user (issued_credential_type self) credential_id (store w)) <= 1 ->
  exists awarded revoked,
    fst (base_award self user credential_id w) = inr awarded
    /\ issue_calls (log (snd (award self user credential_id w)))
       = issue_calls (log w) + (if propagated awarded then 0 else 1)
    /\ fst (base_revoke self credential_id user w) = inr revoked
    /\ revoke_calls (log (snd (revoke self credential_id user w)))
       = revoke_calls (log w) + (if propagated revoked then 1 else 0).
Proof.
  intros idle Hself Hd Hok Hlen.
  destruct (defined_key _ _ _ _ Hd) as [Ht Hi].
  destruct (settled_some self AWARDED user c credential_id w Hi Hlen) as [ra Hsa].
  destruct (settled_some self REVOKED user c credential_id w Hi Hlen) as [rr Hsr].
  exists ra, rr.
  destruct (award_run idle self user credential_id w c ra Hd Hok Hsa) as [wa [Hba _]].
  destruct (revoke_run idle self user credential_id w c rr Hd Hok Hsr) as [wr [Hbr _]].
  destruct (award_follows idle self user credential_id w c ra Hd Hok Hsa)
    as [ra' [_ [_ [_ [_ Hloga]]]]].
  destruct (revoke_follows idle self user credential_id w c rr Hd Hok Hsr)
    as [rr' [w1 [_ [_ [_ [_ [_ Hlogr]]]]]]].
  rewrite Hba, Hbr, Hloga, Hlogr. cbn [fst].
  refine (conj eq_refl (conj _ (conj eq_refl _))).
  - destruct self; [contradiction | |]; cbn [calls_issue issue_event];
      destruct (propagated ra); cbn [negb log_after];
      repeat rewrite issue_calls_app; cbn; lia.
  - destruct self; [contradiction | |]; cbn [calls_revoke revoke_event];
      destruct (propagated rr); cbn [log_after];
      repeat rewrite revoke_calls_app; cbn; lia.
Qed.

(** A first award of a Credly badge calls the provider once; awarding the
    propagated, revoked badge again calls it no more. *)
Lemma provider_calls_gated_witness :
  exists awarded revoked,
    fst (@base_award Demo.collaborators CredlyBadgeTemplateIssuer "alice" 1 Demo.world0)
      = inr awarded
    /\ issue_calls
         (log (snd (@award Demo.collaborators CredlyBadgeTemplateIssuer "alice" 1 Demo.world0)))
       = issue_calls (log Demo.world0)
         + (if @propagated Demo.collaborators awarded then 0 else 1)
    /\ fst (@base_revoke Demo.collaborators CredlyBadgeTemplateIssuer 1 "alice" Demo.world0)
       = inr revoked
    /\ revoke_calls
         (log (snd (@revoke Demo.collaborators CredlyBadgeTemplateIssuer 1 "alice" Demo.world0)))
       = revoke_calls (log Demo.world0)
         + (if @propagated Demo.collaborators revoked then 1 else 0).
Proof.
  apply (@provider_calls_gated Demo.collaborators CredlyBadgeTemplateIssuer "alice" 1
           Demo.world0 Inputs.credly_template).
  - exact setters_idle_demo.
  - discriminate.
  - reflexivity.
  - constructor.
  - simpl. lia.
Defined.

Lemma save_row_pks (r r0 : UserCredentialRow) (s : list UserCredentialRow) :
  In r0 s -> pk r = pk r0 -> map pk (save_row r s) = map pk s.
Proof.
  intros Hin Hpk. unfold save_row.
  assert (Hex : existsb (has_pk (pk r)) s = true).
  { apply existsb_exists. exists r0. split; [assumption|].
    unfold has_pk. apply Nat.eqb_eq. now symmetry. }
  rewrite Hex. apply map_pk_replace.
Qed.

(** * Further properties of the module *)

(** ** Writes to the table *)

Lemma key_matches_other user t id user' t' id' (r : UserCredentialRow) :
  key_matches user t id r = true ->
  (user', t', id') <> (user, t, id) ->
  key_matches user' t' id' r = false.
Proof.
  intros Hk Hne. destruct (key_matches user' t' id' r) eqn:Hk'; [|reflexivity].
  apply key_matches_fields in Hk. apply key_matches_fields in Hk'.
  destruct Hk as [Hu [Ht Hi]], Hk' as [Hu' [Ht' Hi']].
  exfalso. apply Hne. congruence.
Qed.

Lemma filter_replace_other (f : UserCredentialRow -> bool) (r r0 : UserCredentialRow)
    (s : list UserCredentialRow) :
  (forall x, In x s -> pk x = pk r -> x = r0) ->
  f r0 = false -> f r = false ->
  filter f (map (fun x => if has_pk (pk r) x then r else x) s) = filter f s.
Proof.
  intros Huniq H0 Hr. induction s as [|a s IH]; simpl; [reflexivity|].
  assert (IH' : filter f (map (fun x => if has_pk (pk r) x then r else x) s) = filter f s).
  { apply IH. intros x Hx. apply Huniq. now right. }
  destruct (has_pk (pk r) a) eqn:E.
  - assert (a = r0).
    { apply Huniq; [now left|]. unfold has_pk in E. now apply Nat.eqb_eq in E. }
    subst a. now rewrite Hr, H0.
  - now rewrite IH'.
Qed.

Lemma save_row_replaces (r r0 : UserCredentialRow) (s : list UserCredentialRow) :
  In r0 s -> pk r = pk r0 ->
  save_row r s = map (fun x => if has_pk (pk r) x then r else x) s.
Proof.
  intros Hin Hpk. unfold save_row.
  assert (Hex : existsb (has_pk (pk r)) s = true).
  { apply existsb_exists. exists r0. split; [assumption|].
    unfold has_pk. apply Nat.eqb_eq. now symmetry. }
  now rewrite Hex.
Qed.

Section Touch.
Variables (user : string) (t : CredentialType) (id : Z).

Lemma touch_ok s s' : store_ok s -> touch user t id s s' -> store_ok s'.
Proof.
  intros Hok Ht. destruct Ht as [s r Hrec Hpk Hkey | s r0 r Hrec Hpk Hkey].
  - now apply store_ok_appended.
  - apply (save_row_tracked user t id s r0 r); [split; assumption | assumption | assumption].
Qed.

Lemma touch_tracked s s' :
  store_ok s -> touch user t id s s' -> exists r, tracked user t id s' r.
Proof.
  intros Hok Ht. destruct Ht as [s r Hrec Hpk Hkey | s r0 r Hrec Hpk Hkey]; exists r.
  - now apply tracked_appended.
  - apply (save_row_tracked user t id s r0 r); [split; assumption | assumption | assumption].
Qed.

Lemma touch_frame s s' user' t' id' :
  store_ok s -> touch user t id s s' ->
  (user', t', id') <> (user, t, id) ->
  records_for user' t' id' s' = records_for user' t' id' s.
Proof.
  intros Hok Ht Hne. destruct Ht as [s r Hrec Hpk Hkey | s r0 r Hrec Hpk Hkey].
  - unfold records_for. rewrite filter_app. simpl.
    rewrite (key_matches_other user t id user' t' id' r Hkey Hne). apply app_nil_r.
  - destruct (records_for_in _ _ _ _ _ Hrec) as [Hin Hk0].
    rewrite (save_row_replaces r r0 s Hin Hpk). unfold records_for.
    apply filter_replace_other with (r0 := r0).
    + intros x Hx Hx'. apply (unique_pk s); try assumption. congruence.
    + now apply key_matches_other with (user := user) (t := t) (id := id).
    + now apply key_matches_other with (user := user) (t := t) (id := id).
Qed.

Lemma touch_pks s s' :
  touch user t id s s' ->
  (records_for user t id s <> [] /\ map pk s' = map pk s)
  \/ (records_for user t id s = [] /\ map pk s' = map pk s ++ [fresh_pk s]).
Proof.
  intros Ht. destruct Ht as [s r Hrec Hpk Hkey | s r0 r Hrec Hpk Hkey].
  - right. split; [assumption|]. rewrite map_app. simpl. now rewrite Hpk.
  - left. split; [rewrite Hrec; discriminate|].
    destruct (records_for_in _ _ _ _ _ Hrec) as [Hin _].
    now apply save_row_pks with (r0 := r0).
Qed.

Lemma touches_ok s s' : touches user t id s s' -> store_ok s -> store_ok s'.
Proof.
  induction 1 as [s | s s1 s2 Hstep _ IH]; intros Hok; [assumption|].
  apply IH. now apply touch_ok with (s := s).
Qed.

Lemma touches_frame s s' user' t' id' :
  touches user t id s s' -> store_ok s ->
  (user', t', id') <> (user, t, id) ->
  records_for user' t' id' s' = records_for user' t' id' s.
Proof.
  induction 1 as [s | s s1 s2 Hstep _ IH]; intros Hok Hne; [reflexivity|].
  rewrite IH; [| now apply touch_ok with (s := s) | assumption].
  now apply touch_frame.
Qed.

Lemma touches_tracked s s' r0 :
  touches user t id s s' -> tracked user t id s r0 -> exists r, tracked user t id s' r.
Proof.
  intros Hts. revert r0. induction Hts as [s | s s1 s2 Hstep _ IH]; intros r0 Ht.
  - now exists r0.
  - destruct (touch_tracked s s1 (proj1 Ht) Hstep) as [r1 Ht1]. now apply IH with (r0 := r1).
Qed.

Lemma touches_pks_tracked s s' r0 :
  touches user t id s s' -> tracked user t id s r0 -> map pk s' = map pk s.
Proof.
  intros Hts. revert r0. induction Hts as [s | s s1 s2 Hstep _ IH]; intros r0 Ht;
    [reflexivity|].
  destruct (touch_tracked s s1 (proj1 Ht) Hstep) as [r1 Ht1].
  rewrite (IH r1 Ht1).
  destruct (touch_pks s s1 Hstep) as [[_ Hp] | [Hnil _]]; [exact Hp|].
  destruct Ht as [_ Hrec]. rewrite Hrec in Hnil. discriminate.
Qed.

Lemma touches_pks s s' :
  touches user t id s s' -> store_ok s ->
  map pk s' = map pk s
  \/ (records_for user t id s = [] /\ map pk s' = map pk s ++ [fresh_pk s]).
Proof.
  intros Hts Hok. destruct Hts as [s | s s1 s2 Hstep Hrest]; [now left|].
  destruct (touch_tracked s s1 Hok Hstep) as [r1 Ht1].
  rewrite (touches_pks_tracked s1 s2 r1 Hrest Ht1).
  destruct (touch_pks s s1 Hstep) as [[_ Hp] | [Hnil Hp]]; [now left | now right].
Qed.

Lemma touches_unique s s' :
  touches user t id s s' -> store_ok s -> unique_keys s -> unique_keys s'.
Proof.
  intros Hts Hok Hu user' t' id'.
  destruct Hts as [s | s s1 s2 Hstep Hrest]; [apply Hu|].
  pose proof (touches_step user t id s s1 s2 Hstep Hrest) as Hall.
  destruct (touch_tracked s s1 Hok Hstep) as [r1 Ht1].
  destruct (touches_tracked s1 s2 r1 Hrest Ht1) as [r2 [_ Hrec2]].
  destruct (string_dec user' user) as [Hu'|Hu'];
    [destruct (CredentialType_eqb t' t) eqn:Et;
       [destruct (Z.eq_dec id' id) as [Hi'|Hi']|]|].
  - apply CredentialType_eqb_eq in Et. subst. rewrite Hrec2. simpl. lia.
  - rewrite (touches_frame s s2 user' t' id' Hall Hok) by congruence. apply Hu.
  - rewrite (touches_frame s s2 user' t' id' Hall Hok); [apply Hu|].
    intros Heq. injection Heq as _ Heq _. subst. now destruct t.
  - rewrite (touches_frame s s2 user' t' id' Hall Hok) by congruence. apply Hu.
Qed.

End Touch.

Lemma touches_trans user t id s s' s'' :
  touches user t id s s' -> touches user t id s' s'' -> touches user t id s s''.
Proof.
  induction 1 as [s | s s1 s2 Hstep _ IH]; intros Hrest; [assumption|].
  apply touches_step with (s' := s1); [assumption | now apply IH].
Qed.

Lemma touches_saved user t id s r0 r :
  tracked user t id s r0 -> pk r = pk r0 -> key_matches user t id r = true ->
  touches user t id s (save_row r s).
Proof.
  intros [_ Hrec] Hpk Hkey.
  apply touches_step with (s' := save_row r s); [|apply touches_none].
  now apply touch_save with (r0 := r0).
Qed.

(** ** Where the base flow and the provider steps write *)

Section Writes.
Context `{Collaborators}.
Hypothesis idle : setters_idle.

Lemma flow_missing self requested notify credential_id user w :
  find (is_definition (issued_credential_type self) credential_id) (definitions w) = None ->
  issue_and_notify self requested notify credential_id user w = (inl DoesNotExist, w).
Proof.
  intros Hf. unfold issue_and_notify, bind, get_credential. now rewrite Hf.
Qed.

Lemma flow_multiple self requested notify credential_id user w c a b rest :
  defined self credential_id w c ->
  records_for user (issued_credential_type self) credential_id (store w) = a :: b :: rest ->
  issue_and_notify self requested notify credential_id user w
  = (inl MultipleObjectsReturned, w).
Proof.
  intros Hd Hrec. destruct (defined_key _ _ _ _ Hd) as [Ht Hi].
  unfold issue_and_notify, bind, get_credential. rewrite Hd.
  rewrite (issue_credential_multiple self c user requested None None w a b rest);
    [reflexivity | rewrite Ht, Hi; exact Hrec].
Qed.

Lemma flow_touches self requested notify credential_id user w c r :
  defined self credential_id w c ->
  store_ok (store w) ->
  settled self requested user c w = Some r ->
  exists w1,
    issue_and_notify self requested notify credential_id user w = (inr r, w1)
    /\ tracked user (issued_credential_type self) credential_id (store w1) r
    /\ touches user (issued_credential_type self) credential_id (store w) (store w1)
    /\ definitions w1 = definitions w
    /\ log w1 = log w ++ [notify r]
    /\ clock w1 = clock w.
Proof.
  intros Hd Hok Hs.
  destruct (flow_settles idle self requested notify credential_id user w c r Hd Hok Hs)
    as [w1 [Hrun [Ht [Hdefs [Hlog Hclock]]]]].
  exists w1. refine (conj Hrun (conj Ht (conj _ (conj Hdefs (conj Hlog Hclock))))).
  destruct (defined_key _ _ _ _ Hd) as [Hty Hi].
  unfold settled in Hs. rewrite Hi in Hs.
  destruct (records_for user (issued_credential_type self) credential_id (store w))
    as [|r0 [|r1 rest]] eqn:Hrec; [| |discriminate].
  - injection Hs as <-.
    rewrite (flow_created idle self requested notify credential_id user w c Hd Hrec) in Hrun.
    injection Hrun as <-. cbn [store].
    apply touches_step with (s' := store w ++ [new_row self user c requested w]);
      [|apply touches_none].
    apply touch_insert; [exact Hrec | reflexivity |].
    destruct Ht as [_ Hr]. now apply records_for_in in Hr.
  - destruct (guard self r0) eqn:G; injection Hs as <-.
    + rewrite (flow_guarded idle self requested notify credential_id user w c r0 Hd Hrec G)
        in Hrun.
      injection Hrun as <-. apply touches_none.
    + rewrite (flow_overwrites idle self requested notify credential_id user w c r0 Hd Hrec G)
        in Hrun.
      injection Hrun as <-. cbn [store].
      apply touches_saved with (r0 := r0); [split; assumption | reflexivity |].
      destruct (records_for_in _ _ _ _ _ Hrec) as [_ Hk]. exact Hk.
Qed.

Ltac settle_touch Ht Hkey :=
  unfold after_call, with_store, with_log; cbn [store definitions log clock];
  first
    [ apply touches_none
    | eapply touches_saved; [exact Ht | reflexivity | exact Hkey] ].

Lemma issue_step_touches self user t id r c w :
  tracked user t id (store w) r -> linked r w c ->
  touches user t id (store w) (store (snd (issue_step self r w))).
Proof.
  intros Ht Hl.
  assert (Hkey : key_matches user t id r = true)
    by (destruct Ht as [_ Hrec]; now apply records_for_in in Hrec).
  destruct self; cbn [issue_step].
  - apply touches_none.
  - unfold issue_credly_badge, bind, credential_of. rewrite Hl.
    unfold except_BadgeProviderError, CredlyAPIClient_issue_badge, provider_call, lift.
    destruct (credly_issue_badge _ _ _) as [m|response]; cbn [snd fst mark_error save].
    + settle_touch Ht Hkey.
    + destruct (py_get response "data") as [e|data]; cbn [snd]; [settle_touch Ht Hkey|].
      destruct (py_get data "id") as [e|i]; cbn [snd]; [settle_touch Ht Hkey|].
      destruct (py_get data "state") as [e|st]; cbn [snd]; settle_touch Ht Hkey.
  - unfold issue_accredible_badge, bind, credential_of. rewrite Hl.
    unfold except_BadgeProviderError, AccredibleAPIClient_issue_badge, provider_call, lift.
    destruct (accredible_issue_badge _ _ _) as [m|response]; cbn [snd fst mark_error save].
    + settle_touch Ht Hkey.
    + destruct (py_get response "credential") as [e|cr]; cbn [snd]; [settle_touch Ht Hkey|].
      destruct (py_get cr "id") as [e|i]; cbn [snd]; settle_touch Ht Hkey.
Qed.

Lemma revoke_step_touches self user t id r c credential_id w :
  tracked user t id (store w) r -> defined self credential_id w c ->
  touches user t id (store w) (store (snd (revoke_step self credential_id r w))).
Proof.
  intros Ht Hd.
  assert (Hkey : key_matches user t id r = true)
    by (destruct Ht as [_ Hrec]; now apply records_for_in in Hrec).
  destruct self; cbn [revoke_step].
  - apply touches_none.
  - unfold revoke_credly_badge, bind, get_credential. rewrite Hd.
    unfold except_BadgeProviderError, CredlyAPIClient_revoke_badge, provider_call, lift.
    destruct (credly_revoke_badge _ _ _ _) as [m|response]; cbn [snd fst mark_error save].
    + settle_touch Ht Hkey.
    + destruct (py_get response "data") as [e|data]; cbn [snd]; [settle_touch Ht Hkey|].
      destruct (py_get data "state") as [e|st]; cbn [snd]; settle_touch Ht Hkey.
  - unfold revoke_accredible_badge, bind, get_credential. rewrite Hd.
    unfold now, except_BadgeProviderError, AccredibleAPIClient_revoke_badge, provider_call.
    destruct (accredible_revoke_badge _ _ _ _) as [m|response]; cbn [snd fst mark_error save];
      settle_touch Ht Hkey.
Qed.

Lemma award_missing self user credential_id w :
  find (is_definition (issued_credential_type self) credential_id) (definitions w) = None ->
  award self user credential_id w = (inl DoesNotExist, w).
Proof.
  intros Hf.
  pose proof (flow_missing self AWARDED NotifyBadgeAwarded credential_id user w Hf) as Hrun.
  destruct self; cbn [award]; unfold credly_award, accredible_award, bind;
    rewrite base_award_unfold, Hrun; reflexivity.
Qed.

Lemma revoke_missing self user credential_id w :
  find (is_definition (issued_credential_type self) credential_id) (definitions w) = None ->
  revoke self credential_id user w = (inl DoesNotExist, w).
Proof.
  intros Hf.
  pose proof (flow_missing self REVOKED NotifyBadgeRevoked credential_id user w Hf) as Hrun.
  destruct self; cbn [revoke]; unfold credly_revoke, accredible_revoke, bind;
    rewrite base_revoke_unfold, Hrun; reflexivity.
Qed.

Lemma award_multiple self user credential_id w c a b rest :
  defined self credential_id w c ->
  records_for user (issued_credential_type self) credential_id (store w) = a :: b :: rest ->
  award self user credential_id w = (inl MultipleObjectsReturned, w).
Proof.
  intros Hd Hrec.
  pose proof (flow_multiple self AWARDED NotifyBadgeAwarded credential_id user w c a b rest
                Hd Hrec) as Hrun.
  destruct self; cbn [award]; unfold credly_award, accredible_award, bind;
    rewrite base_award_unfold, Hrun; reflexivity.
Qed.

Lemma revoke_multiple self user credential_id w c a b rest :
  defined self credential_id w c ->
  records_for user (issued_credential_type self) credential_id (store w) = a :: b :: rest ->
  revoke self credential_id user w = (inl MultipleObjectsReturned, w).
Proof.
  intros Hd Hrec.
  pose proof (flow_multiple self REVOKED NotifyBadgeRevoked credential_id user w c a b rest
                Hd Hrec) as Hrun.
  destruct self; cbn [revoke]; unfold credly_revoke, accredible_revoke, bind;
    rewrite base_revoke_unfold, Hrun; reflexivity.
Qed.

(** Every write of [award] goes to the row of the pair, and the definitions
    are left alone; no assumption on the table beyond unique primary keys. *)
Lemma award_touches self user credential_id w :
  store_ok (store w) ->
  touches user (issued_credential_type self) credential_id
    (store w) (store (snd (award self user credential_id w)))
  /\ definitions (snd (award self user credential_id w)) = definitions w.
Proof.
  intros Hok.
  destruct (find (is_definition (issued_credential_type self) credential_id) (definitions w))
    as [c|] eqn:Hf.
  2:{ rewrite (award_missing self user credential_id w Hf). split; [apply touches_none|reflexivity]. }
  destruct (records_for user (issued_credential_type self) credential_id (store w))
    as [|r0 [|r1 rest]] eqn:Hrec.
  3:{ rewrite (award_multiple self user credential_id w c r0 r1 rest Hf Hrec).
      split; [apply touches_none|reflexivity]. }
  all: destruct (defined_key self credential_id w c Hf) as [_ Hi];
    destruct (settled_some self AWARDED user c credential_id w Hi) as [r Hs];
      [rewrite Hrec; simpl; lia|];
    destruct (award_run idle self user credential_id w c r Hf Hok Hs)
      as [w1 [Hbase [_ [_ [_ [_ Hrun]]]]]];
    destruct (flow_touches self AWARDED NotifyBadgeAwarded credential_id user w c r Hf Hok Hs)
      as [w1' [Hbase' [Ht [Hts [Hdefs _]]]]];
    rewrite base_award_unfold in Hbase; rewrite Hbase in Hbase'; injection Hbase' as <-;
    rewrite Hrun; destruct (calls_issue self r); cbn [snd]; try (split; assumption);
    pose proof (tracked_linked self user credential_id r w w1 c Hf Hdefs Ht) as Hl;
    (split;
     [ apply touches_trans with (s' := store w1); [assumption|];
       now apply issue_step_touches with (c := c)
     | destruct (award_follows idle self user credential_id w c r Hf Hok Hs)
         as [r' [_ [_ [_ [Hd' _]]]]];
       rewrite Hrun in Hd'; assumption ]).
Qed.

Lemma revoke_touches self user credential_id w :
  store_ok (store w) ->
  touches user (issued_credential_type self) credential_id
    (store w) (store (snd (revoke self credential_id user w)))
  /\ definitions (snd (revoke self credential_id user w)) = definitions w.
Proof.
  intros Hok.
  destruct (find (is_definition (issued_credential_type self) credential_id) (definitions w))
    as [c|] eqn:Hf.
  2:{ rewrite (revoke_missing self user credential_id w Hf). split; [apply touches_none|reflexivity]. }
  destruct (records_for user (issued_credential_type self) credential_id (store w))
    as [|r0 [|r1 rest]] eqn:Hrec.
  3:{ rewrite (revoke_multiple self user credential_id w c r0 r1 rest Hf Hrec).
      split; [apply touches_none|reflexivity]. }
  all: destruct (defined_key self credential_id w c Hf) as [_ Hi];
    destruct (settled_some self REVOKED user c credential_id w Hi) as [r Hs];
      [rewrite Hrec; simpl; lia|];
    destruct (revoke_run idle self user credential_id w c r Hf Hok Hs)
      as [w1 [Hbase [_ [_ [_ [_ Hrun]]]]]];
    destruct (flow_touches self REVOKED NotifyBadgeRevoked credential_id user w c r Hf Hok Hs)
      as [w1' [Hbase' [Ht [Hts [Hdefs _]]]]];
    rewrite base_revoke_unfold in Hbase; rewrite Hbase in Hbase'; injection Hbase' as <-;
    rewrite Hrun; destruct (calls_revoke self r); cbn [snd]; try (split; assumption);
    assert (Hd1 : defined self credential_id w1 c) by (unfold defined; now rewrite Hdefs);
    (split;
     [ apply touches_trans with (s' := store w1); [assumption|];
       now apply revoke_step_touches with (c := c)
     | destruct (revoke_follows idle self user credential_id w c r Hf Hok Hs)
         as [r' [w2 [_ [_ [_ [Hd' _]]]]]];
       rewrite Hrun in Hd'; assumption ]).
Qed.

End Writes.

(** ** Failure and success of the base flow *)

Lemma in_save_row (r : UserCredentialRow) (s : list UserCredentialRow) :
  In r (save_row r s).
Proof.
  pose proof (lookup_saved r s) as Hf. unfold lookup_pk in Hf.
  apply find_some in Hf. apply Hf.
Qed.

Lemma flow_all_or_nothing `{Collaborators} self requested notify credential_id user w :
  setters_idle ->
  (exists r w',
     issue_and_notify self requested notify credential_id user w = (inr r, w')
     /\ In r (store w')
     /\ log w' = log w ++ [notify r]
     /\ definitions w' = definitions w)
  \/ (exists e,
        issue_and_notify self requested notify credential_id user w = (inl e, w)
        /\ (e = DoesNotExist \/ e = MultipleObjectsReturned)).
Proof.
  intros idle.
  destruct (find (is_definition (issued_credential_type self) credential_id) (definitions w))
    as [c|] eqn:Hf.
  2:{ right. exists DoesNotExist. split; [now apply flow_missing | now left]. }
  destruct (records_for user (issued_credential_type self) credential_id (store w))
    as [|r0 [|r1 rest]] eqn:Hrec.
  - left. eexists. eexists.
    split; [exact (flow_created idle self requested notify credential_id user w c Hf Hrec)|].
    cbn [store log definitions]. split; [|split; reflexivity].
    apply in_or_app. right. now left.
  - left. destruct (guard self r0) eqn:G.
    + eexists. eexists.
      split; [exact (flow_guarded idle self requested notify credential_id user w c r0 Hf Hrec G)|].
      cbn [store log definitions with_log]. split; [|split; reflexivity].
      now apply records_for_in in Hrec.
    + eexists. eexists.
      split; [exact (flow_overwrites idle self requested notify credential_id user w c r0 Hf Hrec G)|].
      cbn [store log definitions]. split; [|split; reflexivity].
      apply in_save_row.
  - right. exists MultipleObjectsReturned.
    split; [exact (flow_multiple self requested notify credential_id user w c r0 r1 rest Hf Hrec)
           | now right].
Qed.

(** X1. The inherited [award] and [revoke] are all-or-nothing towards the
    outside: either the call returns a row, that row is in the table and
    exactly one notification, about that row, was added to the log; or it
    raises DoesNotExist or MultipleObjectsReturned and the world is what it
    was: no row written, no notification sent. *)
Theorem base_flow_all_or_nothing `{Collaborators}
    (self : Issuer) (user : string) (credential_id : Z) (w : World) :
  setters_idle ->
  ((exists r w',
      base_award self user credential_id w = (inr r, w')
      /\ In r (store w')
      /\ log w' = log w ++ [NotifyBadgeAwarded r]
      /\ definitions w' = definitions w)
   \/ (exists e,
         base_award self user credential_id w = (inl e, w)
         /\ (e = DoesNotExist \/ e = MultipleObjectsReturned)))
  /\
  ((exists r w',
      base_revoke self credential_id user w = (inr r, w')
      /\ In r (store w')
      /\ log w' = log w ++ [NotifyBadgeRevoked r]
      /\ definitions w' = definitions w)
   \/ (exists e,
         base_revoke self credential_id user w = (inl e, w)
         /\ (e = DoesNotExist \/ e = MultipleObjectsReturned))).
Proof.
  intros idle. split.
  - rewrite base_award_unfold. now apply flow_all_or_nothing.
  - rewrite base_revoke_unfold. now apply flow_all_or_nothing.
Qed.

Lemma base_flow_all_or_nothing_witness :
  ((exists r w',
      @base_award Demo.collaborators BadgeTemplateIssuer "alice" 7 Demo.world0 = (inr r, w')
      /\ In r (store w')
      /\ log w' = log Demo.world0 ++ [NotifyBadgeAwarded r]
      /\ definitions w' = definitions Demo.world0)
   \/ (exists e,
         @base_award Demo.collaborators BadgeTemplateIssuer "alice" 7 Demo.world0
           = (inl e, Demo.world0)
         /\ (e = DoesNotExist \/ e = MultipleObjectsReturned)))
  /\
  ((exists r w',
      @base_revoke Demo.collaborators BadgeTemplateIssuer 7 "alice" Demo.world0 = (inr r, w')
      /\ In r (store w')
      /\ log w' = log Demo.world0 ++ [NotifyBadgeRevoked r]
      /\ definitions w' = definitions Demo.world0)
   \/ (exists e,
         @base_revoke Demo.collaborators BadgeTemplateIssuer 7 "alice" Demo.world0
           = (inl e, Demo.world0)
         /\ (e = DoesNotExist \/ e = MultipleObjectsReturned))).
Proof.
  apply (@base_flow_all_or_nothing Demo.collaborators BadgeTemplateIssuer "alice" 7 Demo.world0).
  intros user_credential w; split; reflexivity.
Defined.

(** X2. On every issuer, [award] and [revoke] for a credential id that has
    no definition of the issuer's type raise DoesNotExist before anything
    else happens: the world is unchanged, so no row is created, nothing is
    notified and no provider is called.  This needs nothing from the
    collaborators. *)
Theorem award_without_definition `{Collaborators}
    (self : Issuer) (user : string) (credential_id : Z) (w : World) :
  find (is_definition (issued_credential_type self) credential_id) (definitions w) = None ->
  award self user credential_id w = (inl DoesNotExist, w)
  /\ revoke self credential_id user w = (inl DoesNotExist, w).
Proof.
  intros Hf. split; [now apply award_missing | now apply revoke_missing].
Qed.

Lemma award_without_definition_witness :
  @award Demo.collaborators CredlyBadgeTemplateIssuer "alice" 99 Demo.world0
    = (inl DoesNotExist, Demo.world0)
  /\ @revoke Demo.collaborators CredlyBadgeTemplateIssuer 99 "alice" Demo.world0
     = (inl DoesNotExist, Demo.world0).
Proof.
  apply (@award_without_definition Demo.collaborators CredlyBadgeTemplateIssuer "alice" 99
           Demo.world0).
  reflexivity.
Defined.

(** ** What [award] and [revoke] leave alone *)

(** X3. [award] and [revoke], on every issuer and whatever the provider
    answers or raises, leave the rows of every other pair exactly as they
    were, and never change the credential definitions. *)
Theorem award_revoke_frame `{Collaborators}
    (self : Issuer) (user : string) (credential_id : Z) (w : World)
    (user' : string) (t' : CredentialType) (id' : Z) :
  setters_idle ->
  store_ok (store w) ->
  (user', t', id') <> (user, issued_credential_type self, credential_id) ->
  records_for user' t' id' (store (snd (award self user credential_id w)))
    = records_for user' t' id' (store w)
  /\ records_for user' t' id' (store (snd (revoke self credential_id user w)))
     = records_for user' t' id' (store w)
  /\ definitions (snd (award self user credential_id w)) = definitions w
  /\ definitions (snd (revoke self credential_id user w)) = definitions w.
Proof.
  intros idle Hok Hne.
  destruct (award_touches idle self user credential_id w Hok) as [Hta Hda].
  destruct (revoke_touches idle self user credential_id w Hok) as [Htr Hdr].
  split; [|split; [|split; assumption]].
  - now apply touches_frame with (user := user) (t := issued_credential_type self)
                                 (id := credential_id).
  - now apply touches_frame with (user := user) (t := issued_credential_type self)
                                 (id := credential_id).
Qed.

Lemma award_revoke_frame_witness :
  records_for "bob" CredlyBadgeTemplate 1
    (store (snd (@award Demo.collaborators CredlyBadgeTemplateIssuer "alice" 1 crowded_world)))
    = records_for "bob" CredlyBadgeTemplate 1 (store crowded_world)
  /\ records_for "bob" CredlyBadgeTemplate 1
       (store (snd (@revoke Demo.collaborators CredlyBadgeTemplateIssuer 1 "alice"
                      crowded_world)))
     = records_for "bob" CredlyBadgeTemplate 1 (store crowded_world)
  /\ definitions (snd (@award Demo.collaborators CredlyBadgeTemplateIssuer "alice" 1
                         crowded_world)) = definitions crowded_world
  /\ definitions (snd (@revoke Demo.collaborators CredlyBadgeTemplateIssuer 1 "alice"
                         crowded_world)) = definitions crowded_world.
Proof.
  apply (@award_revoke_frame Demo.collaborators CredlyBadgeTemplateIssuer "alice" 1
           crowded_world "bob" CredlyBadgeTemplate 1).
  - intros user_credential w; split; reflexivity.
  - unfold store_ok. simpl. repeat constructor; simpl; intuition discriminate.
  - discriminate.
Defined.

(** X4. [award] and [revoke] keep the invariants of the table on every
    issuer and for every provider outcome: primary keys stay unique and no
    pair ever gets a second row. *)
Theorem award_revoke_keep_invariants `{Collaborators}
    (self : Issuer) (user : string) (credential_id : Z) (w : World) :
  setters_idle ->
  store_ok (store w) ->
  unique_keys (store w) ->
  store_ok (store (snd (award self user credential_id w)))
  /\ unique_keys (store (snd (award self user credential_id w)))
  /\ store_ok (store (snd (revoke self credential_id user w)))
  /\ unique_keys (store (snd (revoke self credential_id user w))).
Proof.
  intros idle Hok Hu.
  destruct (award_touches idle self user credential_id w Hok) as [Hta _].
  destruct (revoke_touches idle self user credential_id w Hok) as [Htr _].
  split; [|split; [|split]].
  - exact (touches_ok _ _ _ _ _ Hta Hok).
  - exact (touches_unique _ _ _ _ _ Hta Hok Hu).
  - exact (touches_ok _ _ _ _ _ Htr Hok).
  - exact (touches_unique _ _ _ _ _ Htr Hok Hu).
Qed.

Lemma award_revoke_keep_invariants_witness :
  store_ok (store (snd (@award Demo.collaborators CredlyBadgeTemplateIssuer "alice" 1
                          Demo.world_revoked)))
  /\ unique_keys (store (snd (@award Demo.collaborators CredlyBadgeTemplateIssuer "alice" 1
                                Demo.world_revoked)))
  /\ store_ok (store (snd (@revoke Demo.collaborators CredlyBadgeTemplateIssuer 1 "alice"
                             Demo.world_revoked)))
  /\ unique_keys (store (snd (@revoke Demo.collaborators CredlyBadgeTemplateIssuer 1 "alice"
                                Demo.world_revoked))).
Proof.
  apply (@award_revoke_keep_invariants Demo.collaborators CredlyBadgeTemplateIssuer "alice" 1
           Demo.world_revoked).
  - intros user_credential w; split; reflexivity.
  - unfold store_ok. simpl. repeat constructor; simpl; intuition.
  - intros user t id. unfold records_for. simpl.
    destruct (key_matches user t id Demo.revoked_badge); simpl; lia.
Defined.

(** X5. [award] and [revoke] never delete a row and never renumber one: the
    primary keys after the call are those before it, followed by one fresh
    key at most, and that only when the pair had no row. *)
Theorem award_revoke_never_delete `{Collaborators}
    (self : Issuer) (user : string) (credential_id : Z) (w : World) :
  setters_idle ->
  store_ok (store w) ->
  (map pk (store (snd (award self user credential_id w))) = map pk (store w)
   \/ (records_for user (issued_credential_type self) credential_id (store w) = []
       /\ map pk (store (snd (award self user credential_id w)))
          = map pk (store w) ++ [fresh_pk (store w)]))
  /\
  (map pk (store (snd (revoke self credential_id user w))) = map pk (store w)
   \/ (records_for user (issued_credential_type self) credential_id (store w) = []
       /\ map pk (store (snd (revoke self credential_id user w)))
          = map pk (store w) ++ [fresh_pk (store w)])).
Proof.
  intros idle Hok.
  destruct (award_touches idle self user credential_id w Hok) as [Hta _].
  destruct (revoke_touches idle self user credential_id w Hok) as [Htr _].
  split.
  - exact (touches_pks _ _ _ _ _ Hta Hok).
  - exact (touches_pks _ _ _ _ _ Htr Hok).
Qed.

Lemma award_revoke_never_delete_witness :
  (map pk (store (snd (@award Demo.collaborators CredlyBadgeTemplateIssuer "alice" 1
                         crowded_world))) = map pk (store crowded_world)
   \/ (records_for "alice" CredlyBadgeTemplate 1 (store crowded_world) = []
       /\ map pk (store (snd (@award Demo.collaborators CredlyBadgeTemplateIssuer "alice" 1
                                crowded_world)))
          = map pk (store crowded_world) ++ [fresh_pk (store crowded_world)]))
  /\
  (map pk (store (snd (@revoke Demo.collaborators CredlyBadgeTemplateIssuer 1 "alice"
                         crowded_world))) = map pk (store crowded_world)
   \/ (records_for "alice" CredlyBadgeTemplate 1 (store crowded_world) = []
       /\ map pk (store (snd (@revoke Demo.collaborators CredlyBadgeTemplateIssuer 1 "alice"
                                crowded_world)))
          = map pk (store crowded_world) ++ [fresh_pk (store crowded_world)])).
Proof.
  apply (@award_revoke_never_delete Demo.collaborators CredlyBadgeTemplateIssuer "alice" 1
           crowded_world).
  - intros user_credential w; split; reflexivity.
  - unfold store_ok. simpl. repeat constructor; simpl; intuition discriminate.
Defined.

(** ** Awarding again *)

Lemma set_status_same (r : UserCredentialRow) : set_status (status r) r = r.
Proof. now destruct r. Qed.

Lemma save_row_same (r : UserCredentialRow) (s : list UserCredentialRow) :
  store_ok s -> In r s -> save_row r s = s.
Proof.
  intros Hok Hin. rewrite (save_row_replaces r r s Hin eq_refl).
  assert (Hall : forall l, (forall x, In x l -> In x s) ->
                 map (fun x => if has_pk (pk r) x then r else x) l = l).
  { induction l as [|a l IH]; intros Hl; simpl; [reflexivity|].
    rewrite IH by (intros x Hx; apply Hl; now right). f_equal.
    destruct (has_pk (pk r) a) eqn:E; [|reflexivity].
    unfold has_pk in E. apply Nat.eqb_eq in E.
    symmetry. apply (unique_pk s); [assumption | apply Hl; now left | assumption | assumption]. }
  apply Hall. auto.
Qed.

(** X6. Awarding a badge that is already awarded, on the base issuer or on a
    provider issuer when the row is propagated, changes nothing in the
    tables and calls no provider: the call returns the row as it is and its
    only effect is one more "awarded" notification. *)
Theorem award_again_only_notifies `{Collaborators}
    (self : Issuer) (user : string) (credential_id : Z) (w : World) (c : Credential)
    (r0 : UserCredentialRow) :
  setters_idle ->
  defined self credential_id w c ->
  store_ok (store w) ->
  records_for user (issued_credential_type self) credential_id (store w) = [r0] ->
  status r0 = AWARDED ->
  self = BadgeTemplateIssuer \/ propagated r0 = true ->
  award self user credential_id w
  = (inr r0, mkWorld (store w) (definitions w) (log w ++ [NotifyBadgeAwarded r0]) (clock w)).
Proof.
  intros idle Hd Hok Hrec Hst Hcalls.
  destruct (defined_key _ _ _ _ Hd) as [_ Hi].
  destruct (records_for_in _ _ _ _ _ Hrec) as [Hin _].
  assert (Hsame : set_status AWARDED r0 = r0) by (rewrite <- Hst; apply set_status_same).
  assert (Hs : settled self AWARDED user c w = Some r0).
  { rewrite (settled_existing self AWARDED user c credential_id w r0 Hi Hrec).
    rewrite Hsame. now destruct (guard self r0). }
  destruct (award_run idle self user credential_id w c r0 Hd Hok Hs)
    as [w1 [Hbase [_ [_ [_ [_ Hrun]]]]]].
  assert (Hno : calls_issue self r0 = false).
  { destruct Hcalls as [->|Hp]; [reflexivity|]. destruct self; cbn; now rewrite ?Hp. }
  rewrite Hrun, Hno. f_equal.
  rewrite base_award_unfold in Hbase.
  destruct (guard self r0) eqn:G.
  - rewrite (flow_guarded idle self AWARDED NotifyBadgeAwarded credential_id user w c r0
               Hd Hrec G) in Hbase.
    injection Hbase as <-. reflexivity.
  - rewrite (flow_overwrites idle self AWARDED NotifyBadgeAwarded credential_id user w c r0
               Hd Hrec G) in Hbase.
    rewrite Hsame in Hbase. rewrite (save_row_same r0 (store w) Hok Hin) in Hbase.
    injection Hbase as <-. reflexivity.
Qed.

Lemma award_again_only_notifies_witness :
  @award Demo.collaborators CredlyBadgeTemplateIssuer "bob" 1 crowded_world
  = (inr (mkUserCredential 1 "bob" CredlyBadgeTemplate 1 AWARDED (PyStr "accepted")
            (PyStr "ext-9") PyNone 1700000100),
     mkWorld (store crowded_world) (definitions crowded_world)
       (log crowded_world
        ++ [NotifyBadgeAwarded
              (mkUserCredential 1 "bob" CredlyBadgeTemplate 1 AWARDED (PyStr "accepted")
                 (PyStr "ext-9") PyNone 1700000100)])
       (clock crowded_world)).
Proof.
  apply (@award_again_only_notifies Demo.collaborators CredlyBadgeTemplateIssuer "bob" 1
           crowded_world Inputs.credly_template).
  - intros user_credential w; split; reflexivity.
  - reflexivity.
  - unfold store_ok. simpl. repeat constructor; simpl; intuition discriminate.
  - reflexivity.
  - reflexivity.
  - right. reflexivity.
Defined.

(** ** The provider side of [revoke] *)

Section RevokeSteps.
Context `{Collaborators}.

Lemma revoke_credly_badge_error credential_id user_credential w c message :
  defined CredlyBadgeTemplateIssuer credential_id w c ->
  credly_revoke_badge (log w) (c_organization_uuid c) (external_uuid user_credential)
    (gettext "Open edX internal user credential was revoked") = inl message ->
  revoke_credly_badge credential_id user_credential w
  = (inl (BadgeProviderError message),
     after_call (CredlyRevokeBadge (c_organization_uuid c) (external_uuid user_credential)
                   (gettext "Open edX internal user credential was revoked"))
       (set_state (PyStr "error") user_credential) w).
Proof.
  intros Hd Ha.
  unfold revoke_credly_badge, bind, get_credential. rewrite Hd.
  unfold except_BadgeProviderError, CredlyAPIClient_revoke_badge, provider_call.
  rewrite Ha. reflexivity.
Qed.

Lemma revoke_credly_badge_success credential_id user_credential w c response data reported :
  defined CredlyBadgeTemplateIssuer credential_id w c ->
  credly_revoke_badge (log w) (c_organization_uuid c) (external_uuid user_credential)
    (gettext "Open edX internal user credential was revoked") = inr response ->
  py_get response "data" = inr data ->
  py_get data "state" = inr reported ->
  revoke_credly_badge credential_id user_credential w
  = (inr (set_state reported user_credential),
     after_call (CredlyRevokeBadge (c_organization_uuid c) (external_uuid user_credential)
                   (gettext "Open edX internal user credential was revoked"))
       (set_state reported user_credential) w).
Proof.
  intros Hd Ha Hdata Hs.
  unfold revoke_credly_badge, bind, get_credential. rewrite Hd.
  unfold except_BadgeProviderError, CredlyAPIClient_revoke_badge, provider_call.
  rewrite Ha. unfold lift. rewrite Hdata, Hs. reflexivity.
Qed.

Lemma revoke_accredible_badge_error credential_id user_credential w c message :
  defined AccredibleBadgeTemplateIssuer credential_id w c ->
  accredible_revoke_badge (log w) (c_api_config_id c) (external_id user_credential)
    (strftime_naive (clock w)) = inl message ->
  revoke_accredible_badge credential_id user_credential w
  = (inl (BadgeProviderError message),
     after_call (AccredibleRevokeBadge (c_api_config_id c) (external_id user_credential)
                   (strftime_naive (clock w)))
       (set_state (PyStr "error") user_credential) w).
Proof.
  intros Hd Ha.
  unfold revoke_accredible_badge, bind, get_credential. rewrite Hd.
  unfold now, except_BadgeProviderError, AccredibleAPIClient_revoke_badge, provider_call.
  rewrite Ha. reflexivity.
Qed.

End RevokeSteps.

(** X7. When the provider's revoke call raises during a Credly or Accredible
    [revoke]: the same error reaches the caller, the row of the pair is
    saved with state "error" and the status the inherited step left (REVOKED
    unless the guard held the row back), and the log shows the "revoked"
    notification before the provider call. *)
Theorem provider_error_on_revoke `{Collaborators}
    (self : Issuer) (user : string) (credential_id : Z) (w : World) (c : Credential)
    (r : UserCredentialRow) (e : Event) (message : string) :
  setters_idle ->
  defined self credential_id w c ->
  store_ok (store w) ->
  settled self REVOKED user c w = Some r ->
  propagated r = true ->
  revoke_event self r c w = Some e ->
  revoke_answer self (log w ++ [NotifyBadgeRevoked r]) r c w = inl message ->
  exists w',
    revoke self credential_id user w = (inl (BadgeProviderError message), w')
    /\ records_for user (issued_credential_type self) credential_id (store w')
       = [set_state (PyStr "error") r]
    /\ log w' = log w ++ [NotifyBadgeRevoked r; e]
    /\ ((forall r0,
           In r0 (records_for user (issued_credential_type self) (c_id c) (store w)) ->
           guard self r0 = false) ->
        status (set_state (PyStr "error") r) = REVOKED).
Proof.
  intros idle Hd Hok Hs Hprop He Ha.
  destruct (revoke_run idle self user credential_id w c r Hd Hok Hs)
    as [w1 [_ [Ht [Hdefs [Hlog [Hclock Hrun]]]]]].
  assert (Hd1 : defined self credential_id w1 c) by (unfold defined; now rewrite Hdefs).
  assert (Hkey : key_matches user (issued_credential_type self) credential_id r = true)
    by (destruct Ht as [_ Hrec]; now apply records_for_in in Hrec).
  assert (Hsaved : records_for user (issued_credential_type self) credential_id
                     (save_row (set_state (PyStr "error") r) (store w1))
                   = [set_state (PyStr "error") r]).
  { apply (save_row_tracked user _ credential_id (store w1) r); [exact Ht|reflexivity|exact Hkey]. }
  destruct self; cbn [revoke_event] in He; [discriminate | |];
    injection He as <-; cbn [calls_revoke revoke_step revoke_answer] in Hrun, Ha;
    rewrite Hprop in Hrun; rewrite <- Hlog in Ha; rewrite <- ?Hclock in Ha.
  - rewrite (revoke_credly_badge_error credential_id r w1 c message Hd1 Ha) in Hrun.
    eexists. split; [exact Hrun|]. cbn [after_call store log].
    rewrite Hlog, <- app_assoc.
    refine (conj Hsaved (conj eq_refl _)).
    intros Hg. cbn [set_state status]. now apply (settled_status _ _ _ _ _ _ Hs).
  - rewrite (revoke_accredible_badge_error credential_id r w1 c message Hd1 Ha) in Hrun.
    eexists. split; [exact Hrun|]. cbn [after_call store log].
    rewrite Hlog, <- app_assoc, Hclock.
    refine (conj Hsaved (conj eq_refl _)).
    intros Hg. cbn [set_state status]. now apply (settled_status _ _ _ _ _ _ Hs).
Qed.

Lemma provider_error_on_revoke_witness :
  exists w',
    @revoke Outage.collaborators CredlyBadgeTemplateIssuer 1 "bob" crowded_world
      = (inl (BadgeProviderError "credly is down"), w')
    /\ records_for "bob" CredlyBadgeTemplate 1 (store w')
       = [mkUserCredential 1 "bob" CredlyBadgeTemplate 1 REVOKED (PyStr "error")
            (PyStr "ext-9") PyNone 1700000100]
    /\ log w'
       = [NotifyBadgeRevoked
            (mkUserCredential 1 "bob" CredlyBadgeTemplate 1 REVOKED (PyStr "accepted")
               (PyStr "ext-9") PyNone 1700000100);
          CredlyRevokeBadge "org" (PyStr "ext-9")
            "Open edX internal user credential was revoked"]
    /\ ((forall r0,
           In r0 (records_for "bob" CredlyBadgeTemplate 1 (store crowded_world)) ->
           @guard Outage.collaborators CredlyBadgeTemplateIssuer r0 = false) ->
        REVOKED = REVOKED).
Proof.
  apply (@provider_error_on_revoke Outage.collaborators CredlyBadgeTemplateIssuer "bob" 1
           crowded_world Inputs.credly_template
           (mkUserCredential 1 "bob" CredlyBadgeTemplate 1 REVOKED (PyStr "accepted")
              (PyStr "ext-9") PyNone 1700000100)
           (CredlyRevokeBadge "org" (PyStr "ext-9")
              "Open edX internal user credential was revoked")
           "credly is down").
  - intros user_credential w; split; reflexivity.
  - reflexivity.
  - unfold store_ok. simpl. repeat constructor; simpl; intuition discriminate.
  - reflexivity.
  - reflexivity.
  - reflexivity.
  - reflexivity.
Defined.

(** X8. On a successful Credly revoke call, [revoke_credly_badge] copies the
    response's [data.state] into [state], leaves the external id and the
    status of the row as they are, saves the row, and the call it made
    carries the row's stored external id. *)
Theorem revoke_credly_badge_copies_state `{Collaborators}
    (credential_id : Z) (user_credential : UserCredentialRow) (w : World) (c : Credential)
    (response data reported : PyVal) :
  defined CredlyBadgeTemplateIssuer credential_id w c ->
  credly_revoke_badge (log w) (c_organization_uuid c) (external_uuid user_credential)
    (gettext "Open edX internal user credential was revoked") = inr response ->
  py_get response "data" = inr data ->
  py_get data "state" = inr reported ->
  exists updated w',
    revoke_credly_badge credential_id user_credential w = (inr updated, w')
    /\ state updated = reported
    /\ external_uuid updated = external_uuid user_credential
    /\ status updated = status user_credential
    /\ lookup_pk (pk user_credential) (store w') = Some updated
    /\ log w' = log w ++ [CredlyRevokeBadge (c_organization_uuid c)
                            (external_uuid user_credential)
                            (gettext "Open edX internal user credential was revoked")].
Proof.
  intros Hd Ha Hdata Hs.
  eexists. eexists. split.
  - exact (revoke_credly_badge_success credential_id user_credential w c response data
             reported Hd Ha Hdata Hs).
  - cbn [after_call store log]. repeat split.
    change (pk user_credential) with (pk (set_state reported user_credential)).
    apply lookup_saved.
Qed.

Lemma revoke_credly_badge_copies_state_witness :
  exists updated w',
    @revoke_credly_badge Demo.collaborators 1
      (mkUserCredential 1 "bob" CredlyBadgeTemplate 1 REVOKED (PyStr "accepted")
         (PyStr "ext-9") PyNone 1700000100) crowded_world = (inr updated, w')
    /\ state updated = PyStr "revoked"
    /\ external_uuid updated = PyStr "ext-9"
    /\ status updated = REVOKED
    /\ lookup_pk 1 (store w') = Some updated
    /\ log w' = log crowded_world
                ++ [CredlyRevokeBadge "org" (PyStr "ext-9")
                      "Open edX internal user credential was revoked"].
Proof.
  apply (@revoke_credly_badge_copies_state Demo.collaborators 1
           (mkUserCredential 1 "bob" CredlyBadgeTemplate 1 REVOKED (PyStr "accepted")
              (PyStr "ext-9") PyNone 1700000100)
           crowded_world Inputs.credly_template
           (PyDict [("data", PyDict [("state", PyStr "revoked")])])
           (PyDict [("state", PyStr "revoked")]) (PyStr "revoked")); reflexivity.
Defined.

(** ** A response the module cannot read *)

Lemma unreadable (key inner : string) (response : PyVal) :
  has_dict key response = false ->
  py_get response key = inl AttributeError
  \/ exists d, py_get response key = inr d /\ py_get d inner = inl AttributeError.
Proof.
  unfold has_dict. destruct response as [|s|items]; simpl; try (now left).
  destruct (dict_lookup items key) as [|s|inner_items] eqn:E; intros Hd; try discriminate;
    right; eexists; split; reflexivity.
Qed.

(** X9. When the provider answers an issue call with a response that has no
    dict under "data" (Credly) or under "credential" (Accredible), the
    module raises AttributeError: the external call has been made and
    logged, but the row is neither updated nor marked "error", because only
    BadgeProviderError is caught. *)
Theorem unreadable_response_leaves_row `{Collaborators}
    (credly_badge accredible_badge : UserCredentialRow) (w w0 : World) (c c0 : Credential)
    (response response0 : PyVal) :
  linked credly_badge w c ->
  credly_issue_badge (log w) (c_organization_uuid c)
    (credly_badge_data_of credly_badge c) = inr response ->
  has_dict "data" response = false ->
  linked accredible_badge w0 c0 ->
  accredible_issue_badge (log w0) (c_api_config_id c0)
    (accredible_badge_data_of accredible_badge c0) = inr response0 ->
  has_dict "credential" response0 = false ->
  issue_credly_badge credly_badge w
    = (inl AttributeError,
       mkWorld (store w) (definitions w)
         (log w ++ [CredlyIssueBadge (c_organization_uuid c)
                      (credly_badge_data_of credly_badge c)]) (clock w))
  /\ issue_accredible_badge accredible_badge w0
     = (inl AttributeError,
        mkWorld (store w0) (definitions w0)
          (log w0 ++ [AccredibleIssueBadge (c_api_config_id c0)
                        (accredible_badge_data_of accredible_badge c0)]) (clock w0)).
Proof.
  intros Hl Ha Hbad Hl0 Ha0 Hbad0. split.
  - unfold issue_credly_badge, bind, credential_of. rewrite Hl.
    unfold except_BadgeProviderError, CredlyAPIClient_issue_badge, provider_call.
    rewrite Ha. unfold lift.
    destruct (unreadable "data" "id" response Hbad) as [Hd | [d [Hd Hi]]].
    + rewrite Hd. reflexivity.
    + rewrite Hd, Hi. reflexivity.
  - unfold issue_accredible_badge, bind, credential_of. rewrite Hl0.
    unfold except_BadgeProviderError, AccredibleAPIClient_issue_badge, provider_call.
    rewrite Ha0. unfold lift.
    destruct (unreadable "credential" "id" response0 Hbad0) as [Hd | [d [Hd Hi]]].
    + rewrite Hd. reflexivity.
    + rewrite Hd, Hi. reflexivity.
Qed.

Lemma unreadable_response_leaves_row_witness :
  @issue_credly_badge Garbled.collaborators Inputs.awarded_badge Inputs.world_awarded
    = (inl AttributeError,
       mkWorld (store Inputs.world_awarded) (definitions Inputs.world_awarded)
         (log Inputs.world_awarded
          ++ [CredlyIssueBadge "org"
                (@credly_badge_data_of Garbled.collaborators Inputs.awarded_badge
                   Inputs.credly_template)])
         (clock Inputs.world_awarded))
  /\ @issue_accredible_badge Garbled.collaborators Inputs.accredible_badge
       Inputs.world_accredible
     = (inl AttributeError,
        mkWorld (store Inputs.world_accredible) (definitions Inputs.world_accredible)
          (log Inputs.world_accredible
           ++ [AccredibleIssueBadge 5
                 (@accredible_badge_data_of Garbled.collaborators Inputs.accredible_badge
                    Inputs.accredible_group)])
          (clock Inputs.world_accredible)).
Proof.
  apply (@unreadable_response_leaves_row Garbled.collaborators
           Inputs.awarded_badge Inputs.accredible_badge
           Inputs.world_awarded Inputs.world_accredible
           Inputs.credly_template Inputs.accredible_group
           (PyDict [("message", PyStr "ok")]) (PyStr "ok")); reflexivity.
Defined.

(** ** Revoke, then award *)

Lemma final_row_survives `{Collaborators} self user credential_id w c r :
  setters_idle ->
  defined self credential_id w c ->
  tracked user (issued_credential_type self) credential_id (store w) r ->
  guard self r = true ->
  base_award self user credential_id w
    = (inr r, with_log (log w ++ [NotifyBadgeAwarded r]) w)
  /\ exists again,
       records_for user (issued_credential_type self) credential_id
         (store (snd (award self user credential_id w))) = [again]
       /\ status again = status r /\ pk again = pk r.
Proof.
  intros idle Hd [Hok Hrec] G.
  destruct (defined_key _ _ _ _ Hd) as [_ Hi].
  assert (Hs : settled self AWARDED user c w = Some r).
  { rewrite (settled_existing self AWARDED user c credential_id w r Hi Hrec). now rewrite G. }
  split.
  - rewrite base_award_unfold.
    exact (flow_guarded idle self AWARDED NotifyBadgeAwarded credential_id user w c r Hd Hrec G).
  - destruct (award_follows idle self user credential_id w c r Hd Hok Hs)
      as [again [[_ Hrec'] [Hpk [Hst _]]]].
    exists again. auto.
Qed.

(** X10. For the Accredible issuer, after a [revoke] whose provider call
    succeeds the row is in the expired state whatever the response holds,
    and the one [award] that follows leaves the status and the primary key
    of that row as [revoke] left them, whatever the provider then answers;
    the inherited step of that award returns the row untouched.  Nothing is
    said about later awards. *)
Theorem accredible_award_after_revoke `{Collaborators}
    (user : string) (credential_id : Z) (w : World) (c : Credential)
    (r : UserCredentialRow) (response : PyVal) :
  setters_idle ->
  defined AccredibleBadgeTemplateIssuer credential_id w c ->
  store_ok (store w) ->
  settled AccredibleBadgeTemplateIssuer REVOKED user c w = Some r ->
  propagated r = true ->
  accredible_revoke_badge (log w ++ [NotifyBadgeRevoked r]) (c_api_config_id c)
    (external_id r) (strftime_naive (clock w)) = inr response ->
  exists w1,
    revoke AccredibleBadgeTemplateIssuer credential_id user w
      = (inr (set_state (PyStr AccredibleBadge_STATES_expired) r), w1)
    /\ records_for user AccredibleGroup credential_id (store w1)
       = [set_state (PyStr AccredibleBadge_STATES_expired) r]
    /\ base_award AccredibleBadgeTemplateIssuer user credential_id w1
       = (inr (set_state (PyStr AccredibleBadge_STATES_expired) r),
          with_log (log w1 ++ [NotifyBadgeAwarded
                                 (set_state (PyStr AccredibleBadge_STATES_expired) r)]) w1)
    /\ exists again,
         records_for user AccredibleGroup credential_id
           (store (snd (award AccredibleBadgeTemplateIssuer user credential_id w1))) = [again]
         /\ status again = status r /\ pk again = pk r.
Proof.
  intros idle Hd Hok Hs Hprop Ha.
  destruct (revoke_run idle AccredibleBadgeTemplateIssuer user credential_id w c r Hd Hok Hs)
    as [w0 [_ [Ht [Hdefs [Hlog [Hclock Hrun]]]]]].
  assert (Hd0 : defined AccredibleBadgeTemplateIssuer credential_id w0 c)
    by (unfold defined; now rewrite Hdefs).
  assert (Hkey : key_matches user AccredibleGroup credential_id r = true)
    by (destruct Ht as [_ Hrec]; now apply records_for_in in Hrec).
  cbn [calls_revoke revoke_step] in Hrun. rewrite Hprop in Hrun.
  rewrite <- Hlog, <- Hclock in Ha.
  rewrite (revoke_accredible_badge_success credential_id r w0 c response Hd0 Ha) in Hrun.
  set (r' := set_state (PyStr AccredibleBadge_STATES_expired) r) in *.
  assert (Ht' : tracked user AccredibleGroup credential_id (save_row r' (store w0)) r').
  { apply (save_row_tracked user _ credential_id (store w0) r); [exact Ht|reflexivity|exact Hkey]. }
  eexists. split; [exact Hrun|]. cbn [after_call store].
  split; [apply Ht'|].
  apply (final_row_survives AccredibleBadgeTemplateIssuer user credential_id _ c r' idle).
  - unfold defined, after_call. cbn [definitions]. exact Hd0.
  - exact Ht'.
  - unfold guard, r'. cbn. apply String.eqb_refl.
Qed.

Lemma accredible_award_after_revoke_witness :
  exists w1,
    @revoke Demo.collaborators AccredibleBadgeTemplateIssuer 1 "alice" Inputs.world_accredible
      = (inr (set_state (PyStr "expired") (set_status REVOKED Inputs.accredible_badge)), w1)
    /\ records_for "alice" AccredibleGroup 1 (store w1)
       = [set_state (PyStr "expired") (set_status REVOKED Inputs.accredible_badge)]
    /\ @base_award Demo.collaborators AccredibleBadgeTemplateIssuer "alice" 1 w1
       = (inr (set_state (PyStr "expired") (set_status REVOKED Inputs.accredible_badge)),
          with_log (log w1 ++ [NotifyBadgeAwarded
                                 (set_state (PyStr "expired")
                                    (set_status REVOKED Inputs.accredible_badge))]) w1)
    /\ exists again,
         records_for "alice" AccredibleGroup 1
           (store (snd (@award Demo.collaborators AccredibleBadgeTemplateIssuer "alice" 1 w1)))
           = [again]
         /\ status again = REVOKED /\ pk again = 1.
Proof.
  apply (@accredible_award_after_revoke Demo.collaborators "alice" 1 Inputs.world_accredible
           Inputs.accredible_group (set_status REVOKED Inputs.accredible_badge) PyNone).
  - intros user_credential w; split; reflexivity.
  - reflexivity.
  - unfold store_ok. simpl. repeat constructor; simpl; intuition.
  - reflexivity.
  - reflexivity.
  - reflexivity.
Defined.

(** X11. For the Credly issuer the same holds when the provider reports the
    revoked state in its answer to the revoke call: [revoke] returns the
    row in that state, and a later [award] leaves its status as [revoke]
    left it. *)
Theorem credly_revoke_is_final `{Collaborators}
    (user : string) (credential_id : Z) (w : World) (c : Credential)
    (r : UserCredentialRow) (response data : PyVal) :
  setters_idle ->
  defined CredlyBadgeTemplateIssuer credential_id w c ->
  store_ok (store w) ->
  settled CredlyBadgeTemplateIssuer REVOKED user c w = Some r ->
  propagated r = true ->
  credly_revoke_badge (log w ++ [NotifyBadgeRevoked r]) (c_organization_uuid c)
    (external_uuid r) (gettext "Open edX internal user credential was revoked")
    = inr response ->
  py_get response "data" = inr data ->
  py_get data "state" = inr (PyStr CredlyBadge_STATES_revoked) ->
  exists w1,
    revoke CredlyBadgeTemplateIssuer credential_id user w
      = (inr (set_state (PyStr CredlyBadge_STATES_revoked) r), w1)
    /\ records_for user CredlyBadgeTemplate credential_id (store w1)
       = [set_state (PyStr CredlyBadge_STATES_revoked) r]
    /\ base_award CredlyBadgeTemplateIssuer user credential_id w1
       = (inr (set_state (PyStr CredlyBadge_STATES_revoked) r),
          with_log (log w1 ++ [NotifyBadgeAwarded
                                 (set_state (PyStr CredlyBadge_STATES_revoked) r)]) w1)
    /\ exists again,
         records_for user CredlyBadgeTemplate credential_id
           (store (snd (award CredlyBadgeTemplateIssuer user credential_id w1))) = [again]
         /\ status again = status r /\ pk again = pk r.
Proof.
  intros idle Hd Hok Hs Hprop Ha Hdata Hstate.
  destruct (revoke_run idle CredlyBadgeTemplateIssuer user credential_id w c r Hd Hok Hs)
    as [w0 [_ [Ht [Hdefs [Hlog [Hclock Hrun]]]]]].
  assert (Hd0 : defined CredlyBadgeTemplateIssuer credential_id w0 c)
    by (unfold defined; now rewrite Hdefs).
  assert (Hkey : key_matches user CredlyBadgeTemplate credential_id r = true)
    by (destruct Ht as [_ Hrec]; now apply records_for_in in Hrec).
  cbn [calls_revoke revoke_step] in Hrun. rewrite Hprop in Hrun.
  rewrite <- Hlog in Ha.
  rewrite (revoke_credly_badge_success credential_id r w0 c response data _ Hd0 Ha Hdata Hstate)
    in Hrun.
  set (r' := set_state (PyStr CredlyBadge_STATES_revoked) r) in *.
  assert (Ht' : tracked user CredlyBadgeTemplate credential_id (save_row r' (store w0)) r').
  { apply (save_row_tracked user _ credential_id (store w0) r); [exact Ht|reflexivity|exact Hkey]. }
  eexists. split; [exact Hrun|]. cbn [after_call store].
  split; [apply Ht'|].
  apply (final_row_survives CredlyBadgeTemplateIssuer user credential_id _ c r' idle).
  - unfold defined, after_call. cbn [definitions]. exact Hd0.
  - exact Ht'.
  - unfold guard, r'. cbn. apply String.eqb_refl.
Qed.

(** The scenario of the specification: bob's badge is revoked, the provider
    reports "revoked", and an award that follows leaves it REVOKED. *)
Lemma credly_revoke_is_final_witness :
  exists w1,
    @revoke Demo.collaborators CredlyBadgeTemplateIssuer 1 "bob" crowded_world
      = (inr (mkUserCredential 1 "bob" CredlyBadgeTemplate 1 REVOKED (PyStr "revoked")
                (PyStr "ext-9") PyNone 1700000100), w1)
    /\ records_for "bob" CredlyBadgeTemplate 1 (store w1)
       = [mkUserCredential 1 "bob" CredlyBadgeTemplate 1 REVOKED (PyStr "revoked")
            (PyStr "ext-9") PyNone 1700000100]
    /\ @base_award Demo.collaborators CredlyBadgeTemplateIssuer "bob" 1 w1
       = (inr (mkUserCredential 1 "bob" CredlyBadgeTemplate 1 REVOKED (PyStr "revoked")
                 (PyStr "ext-9") PyNone 1700000100),
          with_log (log w1 ++ [NotifyBadgeAwarded
                                 (mkUserCredential 1 "bob" CredlyBadgeTemplate 1 REVOKED
                                    (PyStr "revoked") (PyStr "ext-9") PyNone 1700000100)]) w1)
    /\ exists again,
         records_for "bob" CredlyBadgeTemplate 1
           (store (snd (@award Demo.collaborators CredlyBadgeTemplateIssuer "bob" 1 w1)))
           = [again]
         /\ status again = REVOKED /\ pk again = 1.
Proof.
  apply (@credly_revoke_is_final Demo.collaborators "bob" 1 crowded_world
           Inputs.credly_template
           (mkUserCredential 1 "bob" CredlyBadgeTemplate 1 REVOKED (PyStr "accepted")
              (PyStr "ext-9") PyNone 1700000100)
           (PyDict [("data", PyDict [("state", PyStr "revoked")])])
           (PyDict [("state", PyStr "revoked")])).
  - intros user_credential w; split; reflexivity.
  - reflexivity.
  - unfold store_ok. simpl. repeat constructor; simpl; intuition discriminate.
  - reflexivity.
  - reflexivity.
  - reflexivity.
  - reflexivity.
  - reflexivity.
Defined.

(** ** A first award, end to end *)

Lemma settled_fresh `{Collaborators} self requested user c credential_id w :
  c_id c = credential_id ->
  records_for user (issued_credential_type self) credential_id (store w) = [] ->
  settled self requested user c w = Some (new_row self user c requested w).
Proof. intros Hi Hrec. unfold settled. now rewrite Hi, Hrec. Qed.

(** X12. A first Credly [award] that the provider accepts: the row returned
    to the caller is the new row carrying the provider's id and state, with
    status AWARDED, and it is the pair's one row in the table; the
    notification went out before the provider call and carries the row as
    it was then; the call is dated with the creation time of the badge
    template, not with the time of the award. *)
Theorem credly_first_award `{Collaborators}
    (user : string) (credential_id : Z) (w : World) (c : Credential)
    (response data id reported : PyVal) :
  let created := new_row CredlyBadgeTemplateIssuer user c AWARDED w in
  let payload := credly_badge_data_of created c in
  setters_idle ->
  defined CredlyBadgeTemplateIssuer credential_id w c ->
  store_ok (store w) ->
  records_for user CredlyBadgeTemplate credential_id (store w) = [] ->
  propagated created = false ->
  credly_issue_badge (log w ++ [NotifyBadgeAwarded created]) (c_organization_uuid c) payload
    = inr response ->
  py_get response "data" = inr data ->
  py_get data "id" = inr id ->
  py_get data "state" = inr reported ->
  exists w',
    award CredlyBadgeTemplateIssuer user credential_id w
      = (inr (set_state reported (set_external_uuid id created)), w')
    /\ records_for user CredlyBadgeTemplate credential_id (store w')
       = [set_state reported (set_external_uuid id created)]
    /\ status (set_state reported (set_external_uuid id created)) = AWARDED
    /\ log w' = log w ++ [NotifyBadgeAwarded created;
                          CredlyIssueBadge (c_organization_uuid c) payload]
    /\ issued_at payload = strftime (c_created c)
    /\ badge_template_id payload = c_uuid c.
Proof.
  intros created payload idle Hd Hok Hrec Hprop Ha Hdata Hid Hstate.
  destruct (defined_key _ _ _ _ Hd) as [_ Hi].
  pose proof (settled_fresh CredlyBadgeTemplateIssuer AWARDED user c credential_id w Hi Hrec)
    as Hs.
  destruct (award_run idle CredlyBadgeTemplateIssuer user credential_id w c created Hd Hok Hs)
    as [w1 [_ [Ht [Hdefs [Hlog [_ Hrun]]]]]].
  pose proof (tracked_linked CredlyBadgeTemplateIssuer user credential_id created w w1 c
                Hd Hdefs Ht) as Hl.
  assert (Hkey : key_matches user CredlyBadgeTemplate credential_id created = true)
    by (destruct Ht as [_ Hr]; now apply records_for_in in Hr).
  cbn [calls_issue issue_step] in Hrun. rewrite Hprop in Hrun. cbn [negb] in Hrun.
  rewrite <- Hlog in Ha.
  rewrite (issue_credly_badge_success created w1 c response data id reported
             Hl Ha Hdata Hid Hstate) in Hrun.
  eexists. split; [exact Hrun|]. cbn [after_call store log].
  split; [|split; [reflexivity|split; [|split; reflexivity]]].
  - apply (save_row_tracked user _ credential_id (store w1) created);
      [exact Ht | reflexivity | exact Hkey].
  - rewrite Hlog, <- app_assoc. reflexivity.
Qed.

Lemma credly_first_award_witness :
  exists w',
    @award Demo.collaborators CredlyBadgeTemplateIssuer "alice" 1 Demo.world0
      = (inr (mkUserCredential 1 "alice" CredlyBadgeTemplate 1 AWARDED (PyStr "accepted")
                (PyStr "ext-1") PyNone 1700000500), w')
    /\ records_for "alice" CredlyBadgeTemplate 1 (store w')
       = [mkUserCredential 1 "alice" CredlyBadgeTemplate 1 AWARDED (PyStr "accepted")
            (PyStr "ext-1") PyNone 1700000500]
    /\ AWARDED = AWARDED
    /\ log w'
       = log Demo.world0
         ++ [NotifyBadgeAwarded Inputs.awarded_badge;
             CredlyIssueBadge "org"
               (@credly_badge_data_of Demo.collaborators Inputs.awarded_badge
                  Inputs.credly_template)]
    /\ issued_at (@credly_badge_data_of Demo.collaborators Inputs.awarded_badge
                    Inputs.credly_template) = "2024-01-01 00:00:00 +0000"
    /\ badge_template_id (@credly_badge_data_of Demo.collaborators Inputs.awarded_badge
                            Inputs.credly_template) = "template-uuid".
Proof.
  apply (@credly_first_award Demo.collaborators "alice" 1 Demo.world0 Inputs.credly_template
           (PyDict [("data", PyDict [("id", PyStr "ext-1"); ("state", PyStr "accepted")])])
           (PyDict [("id", PyStr "ext-1"); ("state", PyStr "accepted")])
           (PyStr "ext-1") (PyStr "accepted")).
  - intros user_credential w; split; reflexivity.
  - reflexivity.
  - constructor.
  - reflexivity.
  - reflexivity.
  - reflexivity.
  - reflexivity.
  - reflexivity.
  - reflexivity.
Defined.

(** X13. A first Accredible [award] that the provider accepts: the row
    returned carries the provider's id and the fixed accepted state, with
    status AWARDED, and is the pair's one row; the notification precedes
    the provider call; the call is dated with the creation time of the row,
    which is the time of this award, and is always marked complete. *)
Theorem accredible_first_award `{Collaborators}
    (user : string) (credential_id : Z) (w : World) (c : Credential)
    (response credential id : PyVal) :
  let created := new_row AccredibleBadgeTemplateIssuer user c AWARDED w in
  let payload := accredible_badge_data_of created c in
  setters_idle ->
  defined AccredibleBadgeTemplateIssuer credential_id w c ->
  store_ok (store w) ->
  records_for user AccredibleGroup credential_id (store w) = [] ->
  propagated created = false ->
  accredible_issue_badge (log w ++ [NotifyBadgeAwarded created]) (c_api_config_id c) payload
    = inr response ->
  py_get response "credential" = inr credential ->
  py_get credential "id" = inr id ->
  exists w',
    award AccredibleBadgeTemplateIssuer user credential_id w
      = (inr (set_state (PyStr AccredibleBadge_STATES_accepted)
                (set_external_id id created)), w')
    /\ records_for user AccredibleGroup credential_id (store w')
       = [set_state (PyStr AccredibleBadge_STATES_accepted) (set_external_id id created)]
    /\ status (set_state (PyStr AccredibleBadge_STATES_accepted)
                 (set_external_id id created)) = AWARDED
    /\ log w' = log w ++ [NotifyBadgeAwarded created;
                          AccredibleIssueBadge (c_api_config_id c) payload]
    /\ issued_on payload = strftime (clock w)
    /\ complete payload = true
    /\ group_id payload = credential_id.
Proof.
  intros created payload idle Hd Hok Hrec Hprop Ha Hcred Hid.
  destruct (defined_key _ _ _ _ Hd) as [_ Hi].
  pose proof (settled_fresh AccredibleBadgeTemplateIssuer AWARDED user c credential_id w
                Hi Hrec) as Hs.
  destruct (award_run idle AccredibleBadgeTemplateIssuer user credential_id w c created
              Hd Hok Hs) as [w1 [_ [Ht [Hdefs [Hlog [_ Hrun]]]]]].
  pose proof (tracked_linked AccredibleBadgeTemplateIssuer user credential_id created w w1 c
                Hd Hdefs Ht) as Hl.
  assert (Hkey : key_matches user AccredibleGroup credential_id created = true)
    by (destruct Ht as [_ Hr]; now apply records_for_in in Hr).
  cbn [calls_issue issue_step] in Hrun. rewrite Hprop in Hrun. cbn [negb] in Hrun.
  rewrite <- Hlog in Ha.
  rewrite (issue_accredible_badge_success created w1 c response credential id
             Hl Ha Hcred Hid) in Hrun.
  eexists. split; [exact Hrun|]. cbn [after_call store log].
  split; [|split; [reflexivity|split; [|split; [reflexivity|split; [reflexivity|exact Hi]]]]].
  - apply (save_row_tracked user _ credential_id (store w1) created);
      [exact Ht | reflexivity | exact Hkey].
  - rewrite Hlog, <- app_assoc. reflexivity.
Qed.

Lemma accredible_first_award_witness :
  exists w',
    @award Demo.collaborators AccredibleBadgeTemplateIssuer "alice" 1 Demo.world0
      = (inr (mkUserCredential 1 "alice" AccredibleGroup 1 AWARDED (PyStr "accepted")
                PyNone (PyStr "77") 1700000500), w')
    /\ records_for "alice" AccredibleGroup 1 (store w')
       = [mkUserCredential 1 "alice" AccredibleGroup 1 AWARDED (PyStr "accepted")
            PyNone (PyStr "77") 1700000500]
    /\ AWARDED = AWARDED
    /\ log w'
       = log Demo.world0
         ++ [NotifyBadgeAwarded
               (mkUserCredential 1 "alice" AccredibleGroup 1 AWARDED (PyStr "created")
                  PyNone PyNone 1700000500);
             AccredibleIssueBadge 5
               (mkAccredibleBadgeData "Alice" "alice@example.org" 1 "Course badge"
                  "2024-01-01 00:00:00 +0000" true)]
    /\ "2024-01-01 00:00:00 +0000" = "2024-01-01 00:00:00 +0000"
    /\ true = true
    /\ 1%Z = 1%Z.
Proof.
  apply (@accredible_first_award Demo.collaborators "alice" 1 Demo.world0
           Inputs.accredible_group
           (PyDict [("credential", PyDict [("id", PyStr "77")])])
           (PyDict [("id", PyStr "77")]) (PyStr "77")).
  - intros user_credential w; split; reflexivity.
  - reflexivity.
  - constructor.
  - reflexivity.
  - reflexivity.
  - reflexivity.
  - reflexivity.
  - reflexivity.
Defined.

(** ** The guard does not look at the requested status *)

(** X14. The guard of [issue_credential] holds back [revoke] as it holds
    back [award]: for a row in the issuer's terminal state the inherited
    revoke step writes nothing and returns the row as it is, so a row whose
    status is AWARDED stays AWARDED; the "revoked" notification is emitted
    all the same, and the status is still unchanged after the whole
    [revoke], whatever the provider answers. *)
Theorem revoke_held_back_by_guard `{Collaborators}
    (self : Issuer) (user : string) (credential_id : Z) (w : World) (c : Credential)
    (r0 : UserCredentialRow) (terminal : string) :
  setters_idle ->
  defined self credential_id w c ->
  store_ok (store w) ->
  records_for user (issued_credential_type self) credential_id (store w) = [r0] ->
  REVOCATION_STATES_get (issued_user_credential_type self) = Some terminal ->
  state r0 = PyStr terminal ->
  base_revoke self credential_id user w
    = (inr r0, with_log (log w ++ [NotifyBadgeRevoked r0]) w)
  /\ exists r',
       records_for user (issued_credential_type self) credential_id
         (store (snd (revoke self credential_id user w))) = [r']
       /\ pk r' = pk r0 /\ status r' = status r0.
Proof.
  intros idle Hd Hok Hrec Hterm Hstate.
  destruct (defined_key _ _ _ _ Hd) as [_ Hi].
  assert (G : guard self r0 = true).
  { unfold guard. rewrite Hterm, Hstate. simpl. apply String.eqb_refl. }
  assert (Hs : settled self REVOKED user c w = Some r0).
  { rewrite (settled_existing self REVOKED user c credential_id w r0 Hi Hrec). now rewrite G. }
  split.
  - rewrite base_revoke_unfold.
    exact (flow_guarded idle self REVOKED NotifyBadgeRevoked credential_id user w c r0
             Hd Hrec G).
  - destruct (revoke_follows idle self user credential_id w c r0 Hd Hok Hs)
      as [r' [w1 [[_ Hrec'] [Hpk [Hst _]]]]].
    exists r'. auto.
Qed.

Lemma revoke_held_back_by_guard_witness :
  @base_revoke Demo.collaborators CredlyBadgeTemplateIssuer 1 "alice"
    (with_store [set_status AWARDED Demo.revoked_badge] Demo.world0)
    = (inr (set_status AWARDED Demo.revoked_badge),
       with_log [NotifyBadgeRevoked (set_status AWARDED Demo.revoked_badge)]
         (with_store [set_status AWARDED Demo.revoked_badge] Demo.world0))
  /\ exists r',
       records_for "alice" CredlyBadgeTemplate 1
         (store (snd (@revoke Demo.collaborators CredlyBadgeTemplateIssuer 1 "alice"
                        (with_store [set_status AWARDED Demo.revoked_badge] Demo.world0))))
         = [r']
       /\ pk r' = 1 /\ status r' = AWARDED.
Proof.
  apply (@revoke_held_back_by_guard Demo.collaborators CredlyBadgeTemplateIssuer "alice" 1
           (with_store [set_status AWARDED Demo.revoked_badge] Demo.world0)
           Inputs.credly_template (set_status AWARDED Demo.revoked_badge) "revoked").
  - intros user_credential w; split; reflexivity.
  - reflexivity.
  - unfold store_ok. simpl. repeat constructor; simpl; intuition.
  - reflexivity.
  - reflexivity.
  - reflexivity.
Defined.

(** ** Revoke after award, as whole calls *)




